(** * Jiseti backend: the record resource (resources/recordResource.py)

    A shallow embedding of [RecordResource] (the GET, POST, PUT and DELETE
    handlers of the incident-report records) and of the helpers it calls,
    followed by the properties of the handlers.

    Conventions of the embedding.
    - The database is an explicit value [Db] threaded through the handlers:
      the [users] and [records] tables are finite maps from the primary key
      to the row.  A handler returns the committed database: what the ORM
      session holds when a handler returns without [db.session.commit()] is
      discarded with the session at the end of the request, so only a commit
      changes the tables.
    - What lies outside the program is the environment [Env]: the media
      uploader, the outcome of the database transaction and the clock.
    - The caller is the integer [int(get_jwt_identity())], [user_id].
    - A Python [float] is an IEEE 754 binary64 value, [spec_float].
    - A Python [str] is a [string] (its bytes); [lower], [capitalize] and
      [strip] act on the ASCII letters and the ASCII white space.  The
      handlers compare the lower-cased type with "red-flag" and
      "intervention" only, and no character outside ASCII lower-cases to a
      letter of these two words.
    - The value a handler returns is kept as Python has it ([Ret]): [None],
      a body, or a pair of a body and a status code; [status_code] is the
      status Flask-RESTful answers with (200 when the handler gives none). *)

From Stdlib Require Import ZArith String Ascii List Bool Lia.
From Stdlib Require Import Floats.SpecFloat.
From stdpp Require Import gmap strings list fin_maps.

Local Open Scope string_scope.
Local Open Scope Z_scope.

(** ** Python values *)

(** *** float *)

Definition float := spec_float.

(** [float(z)] for an integer literal of the source. *)
Definition float_of_Z (z : Z) : float := binary_normalize 53 1024 z 0 false.

(** [bool(x)] for a float: false exactly for [0.0] and [-0.0]. *)
Definition float_truthy (x : float) : bool :=
  match x with
  | S754_zero _ => false
  | _ => true
  end.

(** [lo <= x <= hi] with integer literals [lo], [hi]: a chained comparison,
    [lo <= x and x <= hi]; every comparison with NaN is false. *)
Definition between (lo : Z) (x : float) (hi : Z) : bool :=
  SFleb (float_of_Z lo) x && SFleb x (float_of_Z hi).

(** *** str *)

Definition ascii_lower (c : ascii) : ascii :=
  let n := N_of_ascii c in
  if ((65 <=? n) && (n <=? 90))%N then ascii_of_N (n + 32) else c.

Definition ascii_upper (c : ascii) : ascii :=
  let n := N_of_ascii c in
  if ((97 <=? n) && (n <=? 122))%N then ascii_of_N (n - 32) else c.

(** [s.lower()] *)
Fixpoint lower (s : string) : string :=
  match s with
  | EmptyString => EmptyString
  | String c s' => String (ascii_lower c) (lower s')
  end.

(** [s.capitalize()]: first character upper-cased, the rest lower-cased. *)
Definition capitalize (s : string) : string :=
  match s with
  | EmptyString => EmptyString
  | String c s' => String (ascii_upper c) (lower s')
  end.

(** White space as [str.strip()] sees it, among the ASCII characters. *)
Definition is_space (c : ascii) : bool :=
  let n := N_of_ascii c in
  (((9 <=? n) && (n <=? 13)) || ((28 <=? n) && (n <=? 32)))%N.

Fixpoint lstrip (s : string) : string :=
  match s with
  | EmptyString => EmptyString
  | String c s' => if is_space c then lstrip s' else s
  end.

Fixpoint rstrip (s : string) : string :=
  match s with
  | EmptyString => EmptyString
  | String c s' =>
      match rstrip s' with
      | EmptyString => if is_space c then EmptyString else String c EmptyString
      | t => String c t
      end
  end.

(** [s.strip()] *)
Definition strip (s : string) : string := rstrip (lstrip s).

(** [x in l] for a list of string literals. *)
Definition str_in (x : string) (l : list string) : bool :=
  existsb (String.eqb x) l.

(** [bool(x)] for a value that is [None] or a [str]. *)
Definition str_truthy (x : option string) : bool :=
  match x with
  | Some (String _ _) => true
  | _ => false
  end.

(** [bool(x)] for a value that is [None] or a [float]. *)
Definition opt_float_truthy (x : option float) : bool :=
  match x with
  | Some f => float_truthy f
  | None => false
  end.

(** ** The data model *)

(** [models.userModel.User]: the handlers read the role only. *)
Module User.
Record t := mk { role : string }.
End User.

(** [models.recordModel.Record], with the attributes the handlers read and
    write.  A timestamp is a number (a time in microseconds). *)
Module RecordModel.
Record t := mk {
  id : Z;
  type : string;
  title : string;
  description : string;
  latitude : option float;
  longitude : option float;
  images : list string;
  status : string;
  user_id : Z;
  created_at : option Z;
  updated_at : option Z
}.
End RecordModel.

(** The database: the two tables by primary key, and the next key of the
    records table. *)
Record Db := mkDb {
  users : gmap Z User.t;
  records : gmap Z RecordModel.t;
  next_id : Z
}.

(** ** The request and the environment *)

(** An uploaded file ([werkzeug.FileStorage]). *)
Record FileStorage := mkFile {
  filename : string;
  stream : string
}.

(** [bool(file)] is [bool(file.filename)]. *)
Definition file_truthy (file : FileStorage) : bool :=
  match filename file with
  | EmptyString => false
  | String _ _ => true
  end.

(** The parts of the request the handlers read.  [form_latitude] is
    [request.form.get('latitude', type=float)]: [None] when the field is
    absent or is not a float literal; likewise [args_page] for
    [request.args.get('page', type=int)]. *)
Record Request := mkRequest {
  form_type : option string;
  form_title : option string;
  form_description : option string;
  form_latitude : option float;
  form_longitude : option float;
  files_images : list FileStorage;
  args_page : option Z;
  args_per_page : option Z
}.

(** The result of a call that may raise: the value, or the text of the
    exception. *)
Inductive outcome (A : Type) : Type :=
  | Returns (a : A)
  | Raises (e : string).
Arguments Returns {A} a.
Arguments Raises {A} e.

(** The environment of one request.
    - [upload file] is [cloudinary.uploader.upload(file)['secure_url']];
    - [db_error] is the exception the session raises at
      [add]/[delete]/[commit], if it raises;
    - [now n] is the [n]-th reading of [datetime.now(timezone.utc)]. *)
Record Env := mkEnv {
  upload : FileStorage -> outcome string;
  db_error : option string;
  now : nat -> Z
}.

(** ** Responses *)

(** The value of the ['images'] key: [record.images or '']. *)
Inductive ImagesValue :=
  | ImagesList (l : list string)
  | ImagesStr (s : string).

(** The dictionary [format_record] builds. *)
Module Formatted.
Record t := mk {
  id : Z;
  type : string;
  title : string;
  description : string;
  latitude : option float;
  longitude : option float;
  images : ImagesValue;
  status : string;
  created_at : option Z;
  updated_at : option Z;
  user_id : Z
}.
End Formatted.

(** The dictionaries the handlers return. *)
Inductive Body :=
  | Message (message : string)
  | OneRecord (record : Formatted.t)
  | RecordList (records : list Formatted.t)
  | MessageRecord (message : string) (record : Formatted.t).

(** What a handler returns: nothing ([None]), a body, or [body, code]. *)
Inductive Ret :=
  | RetNone
  | RetBody (body : Body)
  | RetCode (body : Body) (code : Z).

(** The HTTP status of the answer: the code the handler gave, else 200. *)
Definition status_code (r : Ret) : Z :=
  match r with
  | RetCode _ code => code
  | _ => 200
  end.

(** The record a response carries, if it carries one. *)
Definition returned_record (r : Ret) : option Formatted.t :=
  match r with
  | RetBody (OneRecord f) | RetCode (OneRecord f) _ => Some f
  | RetBody (MessageRecord _ f) | RetCode (MessageRecord _ f) _ => Some f
  | _ => None
  end.

(** ** The helpers *)

(** [is_admin(user_id)] *)
Definition is_admin (db : Db) (user_id : Z) : bool :=
  match users db !! user_id with
  | Some user => String.eqb (User.role user) "admin"
  | None => false
  end.

(** [Record.query.all()] *)
Definition query_all (db : Db) : list RecordModel.t :=
  snd <$> map_to_list (records db).

(** [Record.query.filter_by(user_id=user_id).all()] *)
Definition query_filter_by_user_id (db : Db) (user_id : Z) : list RecordModel.t :=
  List.filter (fun r => RecordModel.user_id r =? user_id) (query_all db).

(** The loop over the uploaded files: every truthy file is uploaded and its
    URL appended, in the order of submission; the first upload that raises
    ends the loop. *)
Fixpoint upload_files (env : Env) (uploaded_files : list FileStorage)
  : outcome (list string) :=
  match uploaded_files with
  | [] => Returns []
  | file :: rest =>
      if file_truthy file then
        match upload env file with
        | Raises e => Raises e
        | Returns secure_url =>
            match upload_files env rest with
            | Raises e => Raises e
            | Returns image_urls => Returns (secure_url :: image_urls)
            end
        end
      else upload_files env rest
  end.

(** The status lock of PUT and DELETE. *)
Definition locked_statuses : list string :=
  ["under investigation"; "rejected"; "resolved"].

(** ** The resource *)

Module RecordResource.

(** [format_record] *)
Definition format_record (record : RecordModel.t) : Formatted.t :=
  {| Formatted.id := RecordModel.id record;
     Formatted.type := RecordModel.type record;
     Formatted.title := RecordModel.title record;
     Formatted.description := RecordModel.description record;
     Formatted.latitude := RecordModel.latitude record;
     Formatted.longitude := RecordModel.longitude record;
     Formatted.images :=
       match RecordModel.images record with
       | [] => ImagesStr EmptyString
       | l => ImagesList l
       end;
     Formatted.status := RecordModel.status record;
     Formatted.created_at := RecordModel.created_at record;
     Formatted.updated_at := RecordModel.updated_at record;
     Formatted.user_id := RecordModel.user_id record |}.

(** ** GET *)

(** [if record_id:] with [record_id] an integer or [None]. *)
Definition record_id_truthy (record_id : option Z) : option Z :=
  match record_id with
  | Some n => if n =? 0 then None else Some n
  | None => None
  end.

Definition get (db : Db) (user_id : Z) (record_id : option Z) (req : Request)
  : Ret :=
  match record_id_truthy record_id with
  | Some rid =>
      match records db !! rid with
      | None => RetCode (Message "Record not found") 404
      | Some record =>
          if negb (RecordModel.user_id record =? user_id)
             && negb (is_admin db user_id)
          then RetCode (Message "Unauthorized access") 403
          else RetBody (OneRecord (format_record record))
      end
  | None =>
      let page := default 1 (args_page req) in
      let per_page := Z.min (default 10 (args_per_page req)) 100 in
      if is_admin db user_id then
        let records := query_all db in
        (* the [return] of the source is inside the [else] branch: the
           function ends here and returns [None] *)
        RetNone
      else
        let records := query_filter_by_user_id db user_id in
        RetBody (RecordList (map format_record records))
  end.

(** ** POST *)

(** The statements of [post] inside [try], up to the commit: a response
    returned early, or the record that was added and committed; [Raises]
    when an upload or the session raises. *)
Definition post_try (db : Db) (env : Env) (user_id : Z) (req : Request)
  : outcome (Ret + RecordModel.t) :=
  let record_type := form_type req in
  let title := strip (default EmptyString (form_title req)) in
  let description := strip (default EmptyString (form_description req)) in
  let latitude := form_latitude req in
  let longitude := form_longitude req in
  match record_type with
  | None => Returns (inl (RetCode (Message "Type must be Red-Flag or Intervention") 400))
  | Some record_type =>
  if negb (str_in record_type ["Red-Flag"; "Intervention"]) then
    Returns (inl (RetCode (Message "Type must be Red-Flag or Intervention") 400))
  else if match latitude with
          | Some latitude => negb (between (-90) latitude 90)
          | None => false
          end then
    Returns (inl (RetCode (Message "Invalid latitude") 400))
  else if match longitude with
          | Some longitude => negb (between (-180) longitude 180)
          | None => false
          end then
    Returns (inl (RetCode (Message "Invalid longitude") 400))
  else
    match upload_files env (files_images req) with
    | Raises e => Raises e
    | Returns image_urls =>
        let record :=
          {| RecordModel.id := next_id db;
             RecordModel.type := record_type;
             RecordModel.title := title;
             RecordModel.description := description;
             RecordModel.latitude := latitude;
             RecordModel.longitude := longitude;
             RecordModel.images := image_urls;
             RecordModel.status := "pending";
             RecordModel.user_id := user_id;
             RecordModel.created_at := Some (now env 0);
             RecordModel.updated_at := Some (now env 1) |} in
        match db_error env with
        | Some e => Raises e
        | None => Returns (inr record)
        end
    end
  end.

Definition post (db : Db) (env : Env) (user_id : Z) (req : Request)
  : Ret * Db :=
  match post_try db env user_id req with
  | Returns (inl response) => (response, db)
  | Returns (inr record) =>
      (RetCode (MessageRecord "Record created successfully"
                  (format_record record)) 201,
       {| users := users db;
          records := <[RecordModel.id record := record]> (records db);
          next_id := next_id db + 1 |})
  | Raises e =>
      (* db.session.rollback() *)
      (RetCode (Message ("Error creating record: " ++ e)) 500, db)
  end.

(** ** PUT *)

(** [all([record_type, title, description, latitude, longitude])] *)
Definition all_fields (record_type title description : option string)
    (latitude longitude : option float) : bool :=
  str_truthy record_type && str_truthy title && str_truthy description
  && opt_float_truthy latitude && opt_float_truthy longitude.

Definition set_type (v : string) (r : RecordModel.t) : RecordModel.t :=
  RecordModel.mk (RecordModel.id r) v (RecordModel.title r)
    (RecordModel.description r) (RecordModel.latitude r)
    (RecordModel.longitude r) (RecordModel.images r) (RecordModel.status r)
    (RecordModel.user_id r) (RecordModel.created_at r)
    (RecordModel.updated_at r).

Definition set_title (v : string) (r : RecordModel.t) : RecordModel.t :=
  RecordModel.mk (RecordModel.id r) (RecordModel.type r) v
    (RecordModel.description r) (RecordModel.latitude r)
    (RecordModel.longitude r) (RecordModel.images r) (RecordModel.status r)
    (RecordModel.user_id r) (RecordModel.created_at r)
    (RecordModel.updated_at r).

Definition set_description (v : string) (r : RecordModel.t) : RecordModel.t :=
  RecordModel.mk (RecordModel.id r) (RecordModel.type r) (RecordModel.title r)
    v (RecordModel.latitude r)
    (RecordModel.longitude r) (RecordModel.images r) (RecordModel.status r)
    (RecordModel.user_id r) (RecordModel.created_at r)
    (RecordModel.updated_at r).

Definition set_latitude (v : option float) (r : RecordModel.t) : RecordModel.t :=
  RecordModel.mk (RecordModel.id r) (RecordModel.type r) (RecordModel.title r)
    (RecordModel.description r) v
    (RecordModel.longitude r) (RecordModel.images r) (RecordModel.status r)
    (RecordModel.user_id r) (RecordModel.created_at r)
    (RecordModel.updated_at r).

Definition set_longitude (v : option float) (r : RecordModel.t) : RecordModel.t :=
  RecordModel.mk (RecordModel.id r) (RecordModel.type r) (RecordModel.title r)
    (RecordModel.description r) (RecordModel.latitude r)
    v (RecordModel.images r) (RecordModel.status r)
    (RecordModel.user_id r) (RecordModel.created_at r)
    (RecordModel.updated_at r).

Definition set_images (v : list string) (r : RecordModel.t) : RecordModel.t :=
  RecordModel.mk (RecordModel.id r) (RecordModel.type r) (RecordModel.title r)
    (RecordModel.description r) (RecordModel.latitude r)
    (RecordModel.longitude r) v (RecordModel.status r)
    (RecordModel.user_id r) (RecordModel.created_at r)
    (RecordModel.updated_at r).

Definition set_updated_at (v : option Z) (r : RecordModel.t) : RecordModel.t :=
  RecordModel.mk (RecordModel.id r) (RecordModel.type r) (RecordModel.title r)
    (RecordModel.description r) (RecordModel.latitude r)
    (RecordModel.longitude r) (RecordModel.images r) (RecordModel.status r)
    (RecordModel.user_id r) (RecordModel.created_at r) v.

(** The assignment to [record.type] at the head of [try]: [inl] is the
    response returned for a type that is not one of the two, [inr] the
    record after the assignment (untouched when the field is falsy). *)
Definition put_type (record_type : option string) (record : RecordModel.t)
  : Ret + RecordModel.t :=
  if str_truthy record_type then
    let record_type := default EmptyString record_type in
    if negb (str_in (lower record_type) ["red-flag"; "intervention"]) then
      inl (RetCode (Message "Invalid record type") 400)
    else
      inr (set_type (if String.eqb (lower record_type) "intervention"
                     then capitalize record_type else "Red-Flag") record)
  else inr record.

(** The images of the record after the upload step of [put]: replaced by
    the new URLs when the request has file parts, kept otherwise. *)
Definition put_images (env : Env) (uploaded_files : list FileStorage)
    (record : RecordModel.t) : outcome RecordModel.t :=
  match uploaded_files with
  | [] => Returns record
  | _ :: _ =>
      match upload_files env uploaded_files with
      | Raises e => Raises e
      | Returns image_urls => Returns (set_images image_urls record)
      end
  end.

(** The statements of [put] inside [try]: a response returned early (the
    session is then left uncommitted), or the record as committed. *)
Definition put_try (env : Env) (req : Request) (record : RecordModel.t)
  : outcome (Ret + RecordModel.t) :=
  let record_type := form_type req in
  match put_type record_type record with
  | inl response => Returns (inl response)
  | inr record =>
      let title := form_title req in
      let description := form_description req in
      let latitude := form_latitude req in
      let longitude := form_longitude req in
      if negb (all_fields record_type title description latitude longitude) then
        Returns (inl (RetCode (Message
          "All fields (type, title, description, latitude, longitude) are required") 400))
      else
        match title, description, latitude, longitude with
        | Some title, Some description, Some latitude, Some longitude =>
            if negb (between (-90) latitude 90) then
              Returns (inl (RetCode (Message "Invalid latitude") 400))
            else
              let record := set_latitude (Some latitude) record in
              if negb (between (-180) longitude 180) then
                Returns (inl (RetCode (Message "Invalid longitude") 400))
              else
                let record := set_longitude (Some longitude) record in
                let record := set_title (strip title) record in
                let record := set_description (strip description) record in
                match put_images env (files_images req) record with
                | Raises e => Raises e
                | Returns record =>
                    let record := set_updated_at (Some (now env 0)) record in
                    match db_error env with
                    | Some e => Raises e
                    | None => Returns (inr record)
                    end
                end
        | _, _, _, _ =>
            (* a comparison or a method call on [None] *)
            Raises "TypeError"
        end
  end.

Definition put (db : Db) (env : Env) (user_id record_id : Z) (req : Request)
  : Ret * Db :=
  match records db !! record_id with
  | None => (RetCode (Message "Record not found") 404, db)
  | Some record =>
      if negb (RecordModel.user_id record =? user_id) then
        (RetCode (Message "Unauthorized to edit this record") 403, db)
      else if str_in (RecordModel.status record) locked_statuses then
        (RetCode (Message "Cannot edit record with current status") 400, db)
      else
        match put_try env req record with
        | Returns (inl response) => (response, db)
        | Returns (inr record) =>
            (RetBody (MessageRecord "Record updated successfully"
                        (format_record record)),
             {| users := users db;
                records := <[record_id := record]> (records db);
                next_id := next_id db |})
        | Raises e =>
            (* db.session.rollback() *)
            (RetCode (Message ("Error updating record: " ++ e)) 500, db)
        end
  end.

(** ** DELETE *)

Definition delete (db : Db) (env : Env) (user_id record_id : Z)
  : Ret * Db :=
  match records db !! record_id with
  | None => (RetCode (Message "Record not found") 404, db)
  | Some record =>
      if negb (RecordModel.user_id record =? user_id) then
        (RetCode (Message "Unauthorized to delete this record") 403, db)
      else if str_in (RecordModel.status record) locked_statuses then
        (RetCode (Message "Cannot delete record with current status") 400, db)
      else
        match db_error env with
        | None =>
            (RetBody (Message "Record deleted successfully"),
             {| users := users db;
                records := delete record_id (records db);
                next_id := next_id db |})
        | Some e =>
            (* db.session.rollback() *)
            (RetCode (Message ("Error deleting record: " ++ e)) 500, db)
        end
  end.

End RecordResource.

(** ** A small database to run the handlers on *)

Module Fixture.

Definition alice : Z := 1.
Definition root : Z := 2.
Definition bob : Z := 3.

Definition report : RecordModel.t :=
  {| RecordModel.id := 1;
     RecordModel.type := "Red-Flag";
     RecordModel.title := "Bribe";
     RecordModel.description := "At the gate";
     RecordModel.latitude := Some (float_of_Z 1);
     RecordModel.longitude := Some (float_of_Z 36);
     RecordModel.images := ["a.jpg"; "b.jpg"];
     RecordModel.status := "pending";
     RecordModel.user_id := alice;
     RecordModel.created_at := Some 10;
     RecordModel.updated_at := Some 10 |}.

Definition closed_report : RecordModel.t :=
  {| RecordModel.id := 2;
     RecordModel.type := "Intervention";
     RecordModel.title := "Road";
     RecordModel.description := "Potholes";
     RecordModel.latitude := None;
     RecordModel.longitude := None;
     RecordModel.images := [];
     RecordModel.status := "resolved";
     RecordModel.user_id := bob;
     RecordModel.created_at := Some 20;
     RecordModel.updated_at := None |}.

Definition db : Db :=
  {| users := <[alice := User.mk "user"]>
                (<[root := User.mk "admin"]> (<[bob := User.mk "user"]> ∅));
     records := <[1 := report]> (<[2 := closed_report]> ∅);
     next_id := 3 |}.

(** An environment in which nothing raises. *)
Definition env : Env :=
  {| upload := fun file => Returns ("https://media/" ++ filename file);
     db_error := None;
     now := fun n => 1000 + Z.of_nat n |}.

(** The media service is down. *)
Definition env_upload_raises : Env :=
  {| upload := fun _ => Raises "upload failed";
     db_error := None;
     now := fun n => 1000 + Z.of_nat n |}.

Definition photo : FileStorage := mkFile "c.jpg" "...".

Definition f100 : float := float_of_Z 100.

Definition form (latitude longitude : option float) (files : list FileStorage)
  : Request :=
  {| form_type := Some "Red-Flag";
     form_title := Some " Bribe at the gate ";
     form_description := Some "Asked for money";
     form_latitude := latitude;
     form_longitude := longitude;
     files_images := files;
     args_page := None;
     args_per_page := None |}.

Definition form_with_type (record_type : option string) : Request :=
  {| form_type := record_type;
     form_title := Some "Road";
     form_description := Some "Potholes";
     form_latitude := Some (float_of_Z 2);
     form_longitude := Some (float_of_Z 3);
     files_images := [];
     args_page := None;
     args_per_page := None |}.

End Fixture.

(** ** Vocabulary of the properties *)

(** [uploaded env files urls]: [urls] are the URLs the uploader returned
    for the truthy files of [files], in the order of submission. *)
Definition uploaded (env : Env) (files : list FileStorage)
    (urls : list string) : Prop :=
  Forall2 (fun file url => upload env file = Returns url)
    (List.filter file_truthy files) urls.

(** The checks of [post] before anything is uploaded or stored. *)
Definition passes_validation (req : Request) : Prop :=
  (form_type req = Some "Red-Flag" \/ form_type req = Some "Intervention")
  /\ (forall latitude, form_latitude req = Some latitude ->
        between (-90) latitude 90 = true)
  /\ (forall longitude, form_longitude req = Some longitude ->
        between (-180) longitude 180 = true).

(** The request supplies a latitude outside [-90, 90] or a longitude
    outside [-180, 180]. *)
Definition out_of_range (req : Request) : Prop :=
  (exists latitude, form_latitude req = Some latitude
                    /\ between (-90) latitude 90 = false)
  \/ (exists longitude, form_longitude req = Some longitude
                        /\ between (-180) longitude 180 = false).

Definition valid_type (s : string) : Prop :=
  s = "Red-Flag" \/ s = "Intervention".

(** Every stored record has one of the two types. *)
Definition types_ok (db : Db) : Prop :=
  forall k r, records db !! k = Some r -> valid_type (RecordModel.type r).

(** The keys stored lie between 1 and the next key. *)
Definition keys_ok (db : Db) : Prop :=
  1 <= next_id db
  /\ forall k r, records db !! k = Some r -> 1 <= k < next_id db.

(** One request that may change the database. *)
Inductive step (db : Db) : Db -> Prop :=
  | step_post env user_id req :
      step db (snd (RecordResource.post db env user_id req))
  | step_put env user_id record_id req :
      step db (snd (RecordResource.put db env user_id record_id req))
  | step_delete env user_id record_id :
      step db (snd (RecordResource.delete db env user_id record_id)).

(** The databases the handlers reach from the empty records table, whose
    keys are assigned from 1 on. *)
Inductive reachable : Db -> Prop :=
  | reachable_init us n : 1 <= n -> reachable (mkDb us ∅ n)
  | reachable_step db db' : reachable db -> step db db' -> reachable db'.

(** The sentence "every create request that passes validation returns 201
    and the returned record has status pending and the caller as owner",
    at one request. *)
Definition valid_create_returns_201 (db : Db) (env : Env) (user_id : Z)
    (req : Request) : Prop :=
  passes_validation req ->
  status_code (fst (RecordResource.post db env user_id req)) = 201
  /\ exists f, returned_record (fst (RecordResource.post db env user_id req))
                = Some f
               /\ Formatted.status f = "pending"
               /\ Formatted.user_id f = user_id.

(** The sentence "every create or update request with a coordinate out of
    range returns 400 and no record is created or modified", at one
    request. *)
Definition out_of_range_returns_400 (db : Db) (env : Env)
    (user_id record_id : Z) (req : Request) : Prop :=
  out_of_range req ->
  (status_code (fst (RecordResource.post db env user_id req)) = 400
   /\ snd (RecordResource.post db env user_id req) = db)
  /\ (status_code (fst (RecordResource.put db env user_id record_id req)) = 400
      /\ snd (RecordResource.put db env user_id record_id req) = db).

(** The status of the record is one of the locked ones. *)
Definition locked (record : RecordModel.t) : Prop :=
  RecordModel.status record = "under investigation"
  \/ RecordModel.status record = "rejected"
  \/ RecordModel.status record = "resolved".

(** A form field that is missing or empty. *)
Definition absent (field : option string) : Prop :=
  field = None \/ field = Some EmptyString.

(** The same environment with another clock. *)
Definition with_clock (env : Env) (clock : nat -> Z) : Env :=
  mkEnv (upload env) (db_error env) clock.


(** What every record of a database built by the handlers satisfies. *)
Definition record_ok (db : Db) (k : Z) (r : RecordModel.t) : Prop :=
  RecordModel.id r = k
  /\ 1 <= k < next_id db
  /\ RecordModel.status r = "pending"
  /\ is_Some (RecordModel.created_at r)
  /\ is_Some (RecordModel.updated_at r).

(** ** Properties *)

(** *** Python values *)

Lemma str_in_In (x : string) (l : list string) :
  str_in x l = true <-> In x l.
Proof.
  unfold str_in. rewrite existsb_exists. split.
  - intros (y & Hy & Heq). apply String.eqb_eq in Heq. now subst.
  - intros H. exists x. split; [assumption | apply String.eqb_refl].
Qed.

Lemma str_in_locked (s : string) :
  str_in s locked_statuses = true <->
  s = "under investigation" \/ s = "rejected" \/ s = "resolved".
Proof.
  rewrite str_in_In. unfold locked_statuses. simpl.
  intuition congruence.
Qed.

(** [x == 0.0] holds for the two zeros only, and they are falsy. *)
Lemma float_eq_zero_falsy (x : float) :
  SFeqb x (float_of_Z 0) = true <-> float_truthy x = false.
Proof.
  destruct x as [s| s | |s m e]; try destruct s; vm_compute; intuition congruence.
Qed.

(** The two zeros lie inside both geographic ranges. *)
Lemma zero_in_ranges (x : float) :
  float_truthy x = false ->
  between (-90) x 90 = true /\ between (-180) x 180 = true.
Proof.
  destruct x as [s| s | |s m e]; try discriminate.
  intros _. destruct s; vm_compute; split; reflexivity.
Qed.

Lemma ascii_lower_upper (c : ascii) (l : ascii) :
  ascii_lower c = l -> ascii_lower l = l -> ascii_upper c = ascii_upper l.
Proof.
  intros <- _.
  destruct c as [[] [] [] [] [] [] [] []]; vm_compute; reflexivity.
Qed.

(** A string that lower-cases to "intervention" capitalizes to
    "Intervention". *)
Lemma capitalize_intervention (s : string) :
  lower s = "intervention" -> capitalize s = "Intervention".
Proof.
  destruct s as [|c s']; simpl; [discriminate|].
  intros H. injection H as Hc Hs. rewrite Hs. f_equal.
  rewrite (ascii_lower_upper c "i"%char Hc); reflexivity.
Qed.

(** The range checks and the string methods on a few values. *)
Example between_bounds :
  between (-90) (float_of_Z 90) 90 = true
  /\ between (-90) (float_of_Z (-90)) 90 = true
  /\ between (-90) (float_of_Z 91) 90 = false
  /\ between (-180) (float_of_Z (-181)) 180 = false
  /\ between (-90) S754_nan 90 = false
  /\ between (-90) (S754_infinity false) 90 = false
  /\ between (-90) (S754_zero true) 90 = true.
Proof. repeat split; reflexivity. Qed.

Example str_methods :
  lower "Red-FLAG" = "red-flag"
  /\ capitalize "iNTERVENTION" = "Intervention"
  /\ strip "  Bribe at the gate " = "Bribe at the gate"
  /\ str_in "red-flag" ["Red-Flag"; "Intervention"] = false.
Proof. repeat split; reflexivity. Qed.

(** *** The upload loop *)

Lemma upload_files_returns (env : Env) (files : list FileStorage)
    (urls : list string) :
  upload_files env files = Returns urls <-> uploaded env files urls.
Proof.
  unfold uploaded. revert urls.
  induction files as [|file rest IH]; intros urls; simpl.
  - split.
    + intros H. injection H as <-. constructor.
    + intros H. inversion H. reflexivity.
  - destruct (file_truthy file).
    + destruct (upload env file) as [url|e] eqn:Hup.
      * destruct (upload_files env rest) as [urls'|e'] eqn:Hrest.
        -- split.
           ++ intros H. injection H as <-. constructor; [assumption|].
              now apply IH.
           ++ intros H. inversion H as [|? ? ? ? Hu Hr]; subst.
              rewrite Hup in Hu. injection Hu as ->.
              apply IH in Hr. injection Hr as ->. reflexivity.
        -- split; [discriminate|].
           intros H. inversion H as [|? ? ? ? Hu Hr]; subst.
           apply IH in Hr. discriminate.
      * split; [discriminate|].
        intros H. inversion H as [|? ? ? ? Hu Hr]; subst.
        rewrite Hup in Hu. discriminate.
    + apply IH.
Qed.

(** *** PUT: what a committed update looks like *)

Lemma put_type_inr (record_type : option string) (record record' : RecordModel.t) :
  RecordResource.put_type record_type record = inr record' ->
  str_truthy record_type = true ->
  exists t, record_type = Some t /\
    (lower t = "red-flag" /\ record' = RecordResource.set_type "Red-Flag" record
     \/ lower t = "intervention"
        /\ record' = RecordResource.set_type "Intervention" record).
Proof.
  unfold RecordResource.put_type. intros H Ht. rewrite Ht in H.
  destruct record_type as [t|]; [|discriminate Ht].
  change (default EmptyString (Some t)) with t in H.
  exists t. split; [reflexivity|].
  destruct (str_in (lower t) ["red-flag"; "intervention"]) eqn:Hin;
    [|discriminate H].
  change (negb true) with false in H. cbv iota in H.
  injection H as <-.
  apply str_in_In in Hin. simpl in Hin.
  destruct Hin as [Hin | [Hin | []]]; symmetry in Hin.
  - left. split; [assumption|]. rewrite Hin. reflexivity.
  - right. split; [assumption|]. rewrite Hin. simpl.
    rewrite (capitalize_intervention t Hin). reflexivity.
Qed.

Lemma all_fields_true (record_type title description : option string)
    (latitude longitude : option float) :
  RecordResource.all_fields record_type title description latitude longitude
    = true ->
  str_truthy record_type = true /\ str_truthy title = true
  /\ str_truthy description = true /\ opt_float_truthy latitude = true
  /\ opt_float_truthy longitude = true.
Proof.
  unfold RecordResource.all_fields. rewrite !andb_true_iff. tauto.
Qed.

(** The record a PUT commits: the identity, owner, status and creation
    time of the stored record, the fields of the form, the new images when
    there are file parts, and the time of the update. *)
Lemma put_try_inr (env : Env) (req : Request) (record record' : RecordModel.t) :
  RecordResource.put_try env req record = Returns (inr record') ->
  exists t title description latitude longitude image_urls,
    form_type req = Some t
    /\ (lower t = "red-flag" /\ RecordModel.type record' = "Red-Flag"
        \/ lower t = "intervention" /\ RecordModel.type record' = "Intervention")
    /\ form_title req = Some title
    /\ form_description req = Some description
    /\ form_latitude req = Some latitude
    /\ form_longitude req = Some longitude
    /\ between (-90) latitude 90 = true
    /\ between (-180) longitude 180 = true
    /\ match files_images req with
       | [] => image_urls = RecordModel.images record
       | _ :: _ => upload_files env (files_images req) = Returns image_urls
       end
    /\ db_error env = None
    /\ record' =
       RecordModel.mk (RecordModel.id record) (RecordModel.type record')
         (strip title) (strip description) (Some latitude) (Some longitude)
         image_urls (RecordModel.status record) (RecordModel.user_id record)
         (RecordModel.created_at record) (Some (now env 0)).
Proof.
  unfold RecordResource.put_try. intros H.
  destruct (RecordResource.put_type (form_type req) record) as [resp|r1] eqn:Hty;
    [discriminate H|].
  destruct (RecordResource.all_fields _ _ _ _ _) eqn:Hall;
    [|discriminate H].
  apply all_fields_true in Hall. destruct Hall as (Ht & _).
  destruct (put_type_inr _ _ _ Hty Ht) as (t & Hft & Hcase).
  cbn [negb] in H.
  destruct (form_title req) as [title|]; [|discriminate H].
  destruct (form_description req) as [description|]; [|discriminate H].
  destruct (form_latitude req) as [latitude|]; [|discriminate H].
  destruct (form_longitude req) as [longitude|]; [|discriminate H].
  destruct (between (-90) latitude 90) eqn:Hlat; [|discriminate H].
  destruct (between (-180) longitude 180) eqn:Hlon; [|discriminate H].
  cbn [negb] in H.
  destruct (RecordResource.put_images env (files_images req) _) as [r2|e] eqn:Himg;
    [|discriminate H].
  destruct (db_error env) as [e|] eqn:Hdb; [discriminate H|].
  injection H as <-.
  assert (Himgs : exists image_urls,
             match files_images req with
             | [] => image_urls = RecordModel.images record
             | _ :: _ => upload_files env (files_images req) = Returns image_urls
             end
             /\ r2 = RecordResource.set_images image_urls
                      (RecordResource.set_description (strip description)
                         (RecordResource.set_title (strip title)
                            (RecordResource.set_longitude (Some longitude)
                               (RecordResource.set_latitude (Some latitude) r1))))).
  { unfold RecordResource.put_images in Himg.
    destruct (files_images req) as [|file rest].
    - injection Himg as <-. exists (RecordModel.images record). split; [reflexivity|].
      destruct Hcase as [[_ ->] | [_ ->]]; reflexivity.
    - destruct (upload_files env (file :: rest)) as [urls|e]; [|discriminate Himg].
      injection Himg as <-. exists urls. split; reflexivity. }
  destruct Himgs as (image_urls & Hfiles & ->).
  exists t, title, description, latitude, longitude, image_urls.
  repeat split; try assumption; try reflexivity.
  - destruct Hcase as [[Hl ->] | [Hl ->]]; [left | right]; split;
      solve [assumption | reflexivity].
  - destruct Hcase as [[Hl ->] | [Hl ->]]; reflexivity.
Qed.

Lemma put_type_inl (record_type : option string) (record : RecordModel.t)
    (response : Ret) :
  RecordResource.put_type record_type record = inl response ->
  response = RetCode (Message "Invalid record type") 400.
Proof.
  unfold RecordResource.put_type. intros H.
  destruct (str_truthy record_type); [|discriminate H].
  destruct (negb _); [|discriminate H].
  injection H as <-. reflexivity.
Qed.

(** Every response [put] returns early from inside [try] is a 400. *)
Lemma put_try_inl (env : Env) (req : Request) (record : RecordModel.t)
    (response : Ret) :
  RecordResource.put_try env req record = Returns (inl response) ->
  exists message, response = RetCode (Message message) 400.
Proof.
  unfold RecordResource.put_try. intros H.
  destruct (RecordResource.put_type (form_type req) record) as [resp|r1] eqn:Hty.
  { injection H as <-. apply put_type_inl in Hty. eauto. }
  destruct (negb _).
  { injection H as <-. eauto. }
  destruct (form_title req), (form_description req), (form_latitude req),
    (form_longitude req); try discriminate H.
  destruct (negb _).
  { injection H as <-. eauto. }
  destruct (negb _).
  { injection H as <-. eauto. }
  destruct (RecordResource.put_images _ _ _); [|discriminate H].
  destruct (db_error env); discriminate H.
Qed.

(** The outcomes of [put]: the database is left as it was and the status
    is 404, 403, 400 or 500; or the update is committed and the answer is
    a 200 carrying the committed record. *)
Lemma put_cases (db : Db) (env : Env) (user_id record_id : Z) (req : Request) :
  (snd (RecordResource.put db env user_id record_id req) = db
   /\ exists message code,
        fst (RecordResource.put db env user_id record_id req)
          = RetCode (Message message) code
        /\ In code [404; 403; 400; 500])
  \/ (exists record record',
        records db !! record_id = Some record
        /\ RecordModel.user_id record = user_id
        /\ str_in (RecordModel.status record) locked_statuses = false
        /\ RecordResource.put_try env req record = Returns (inr record')
        /\ RecordResource.put db env user_id record_id req
           = (RetBody (MessageRecord "Record updated successfully"
                         (RecordResource.format_record record')),
              mkDb (users db) (<[record_id := record']> (records db))
                (next_id db))).
Proof.
  unfold RecordResource.put.
  destruct (records db !! record_id) as [record|] eqn:Hget.
  2: { left. split; [reflexivity|]. do 2 eexists. split; [reflexivity|].
       simpl. tauto. }
  destruct (RecordModel.user_id record =? user_id) eqn:Hown; cbn [negb].
  2: { left. split; [reflexivity|]. do 2 eexists. split; [reflexivity|].
       simpl. tauto. }
  apply Z.eqb_eq in Hown.
  destruct (str_in (RecordModel.status record) locked_statuses) eqn:Hlock.
  { left. split; [reflexivity|]. do 2 eexists. split; [reflexivity|].
    simpl. tauto. }
  destruct (RecordResource.put_try env req record) as [[response|record']|e] eqn:Htry.
  - left. split; [reflexivity|].
    destruct (put_try_inl _ _ _ _ Htry) as (message & ->).
    do 2 eexists. split; [reflexivity|]. simpl. tauto.
  - right. exists record, record'. repeat split; assumption.
  - left. split; [reflexivity|]. do 2 eexists. split; [reflexivity|].
    simpl. tauto.
Qed.

(** A 200 from [put] is a committed update. *)
Lemma put_200 (db : Db) (env : Env) (user_id record_id : Z) (req : Request) :
  status_code (fst (RecordResource.put db env user_id record_id req)) = 200 ->
  exists record record',
    records db !! record_id = Some record
    /\ RecordModel.user_id record = user_id
    /\ str_in (RecordModel.status record) locked_statuses = false
    /\ RecordResource.put_try env req record = Returns (inr record')
    /\ RecordResource.put db env user_id record_id req
       = (RetBody (MessageRecord "Record updated successfully"
                     (RecordResource.format_record record')),
          mkDb (users db) (<[record_id := record']> (records db))
            (next_id db)).
Proof.
  intros H.
  destruct (put_cases db env user_id record_id req)
    as [(_ & message & code & Hret & Hcode) | Hok]; [|exact Hok].
  rewrite Hret in H. simpl in H. subst code. simpl in Hcode.
  repeat destruct Hcode as [Hcode | Hcode]; try discriminate Hcode.
  destruct Hcode.
Qed.

(** *** The keys of the records table *)

Lemma post_try_id (db : Db) (env : Env) (user_id : Z) (req : Request)
    (record : RecordModel.t) :
  RecordResource.post_try db env user_id req = Returns (inr record) ->
  RecordModel.id record = next_id db.
Proof.
  unfold RecordResource.post_try. intros Htry.
  destruct (form_type req) as [t|]; [|discriminate Htry].
  repeat match type of Htry with
         | (if ?c then _ else _) = _ => destruct c; [discriminate Htry|]
         end.
  destruct (upload_files env (files_images req)); [|discriminate Htry].
  destruct (db_error env); [discriminate Htry|].
  injection Htry as <-. reflexivity.
Qed.

Lemma step_keys_ok (db db' : Db) : keys_ok db -> step db db' -> keys_ok db'.
Proof.
  intros [Hn Hk] Hstep.
  destruct Hstep as [env user_id req | env user_id record_id req
                    | env user_id record_id].
  - unfold RecordResource.post.
    destruct (RecordResource.post_try db env user_id req)
      as [[response|record]|e] eqn:Htry; cbn [snd]; try (split; assumption).
    apply post_try_id in Htry. rewrite Htry.
    split; cbn [next_id records]; [lia|].
    intros k r. rewrite lookup_insert.
    destruct (decide (next_id db = k)) as [<-|_]; [lia|].
    intros Hr. specialize (Hk k r Hr). lia.
  - destruct (put_cases db env user_id record_id req)
      as [(-> & _) | (r & r' & Hget & _ & _ & _ & ->)]; [split; assumption|].
    cbn [snd]. split; cbn [next_id records]; [assumption|].
    intros k x. rewrite lookup_insert.
    destruct (decide (record_id = k)) as [<-|_].
    + intros _. exact (Hk record_id r Hget).
    + apply Hk.
  - unfold RecordResource.delete.
    destruct (records db !! record_id); [|split; assumption].
    destruct (negb _); [split; assumption|].
    destruct (str_in _ _); [split; assumption|].
    destruct (db_error env); [split; assumption|].
    cbn [snd]. split; cbn [next_id records]; [assumption|].
    intros k x Hx.
    apply lookup_delete_Some in Hx. destruct Hx as [_ Hx]. exact (Hk k x Hx).
Qed.

(** In a reachable database no record has the key 0. *)
Lemma reachable_keys (db : Db) : reachable db -> keys_ok db.
Proof.
  induction 1 as [us n Hn | db db' _ IH Hstep].
  - split; [exact Hn|]. intros k r Hr. cbn [records] in Hr.
    rewrite lookup_empty in Hr. discriminate Hr.
  - exact (step_keys_ok db db' IH Hstep).
Qed.

(** The key 0 is no record id for [get]: [if record_id:] sends it to the
    list branch. *)
Lemma get_record_id_zero (db : Db) (user_id : Z) (req : Request) :
  RecordResource.get db user_id (Some 0) req
  = RecordResource.get db user_id None req.
Proof. reflexivity. Qed.

(** *** Authorization *)

(** C2.  A PUT or a DELETE on an existing record whose owner is not the
    caller is answered with 403 and changes nothing, whatever the role of
    the caller: nothing in the two handlers looks at the role, so an admin
    is refused like anyone else. *)
Theorem put_delete_non_owner_forbidden
    (db : Db) (env : Env) (user_id record_id : Z) (req : Request)
    (record : RecordModel.t) :
  records db !! record_id = Some record ->
  RecordModel.user_id record <> user_id ->
  RecordResource.put db env user_id record_id req
    = (RetCode (Message "Unauthorized to edit this record") 403, db)
  /\ RecordResource.delete db env user_id record_id
    = (RetCode (Message "Unauthorized to delete this record") 403, db).
Proof.
  intros Hget Hne.
  unfold RecordResource.put, RecordResource.delete. rewrite Hget.
  apply Z.eqb_neq in Hne. rewrite Hne. split; reflexivity.
Qed.

(** The admin of the fixture is refused on the report of another user. *)
Lemma put_delete_non_owner_forbidden_witness :
  is_admin Fixture.db Fixture.root = true
  /\ status_code (fst (RecordResource.put Fixture.db Fixture.env Fixture.root 1
                         (Fixture.form None None []))) = 403
  /\ status_code (fst (RecordResource.delete Fixture.db Fixture.env
                         Fixture.root 1)) = 403.
Proof.
  split; [reflexivity|].
  destruct (put_delete_non_owner_forbidden Fixture.db Fixture.env Fixture.root 1
              (Fixture.form None None []) Fixture.report) as [Hput Hdel].
  - reflexivity.
  - discriminate.
  - rewrite Hput, Hdel. split; reflexivity.
Defined.

(** C3.  A GET of one existing record (the record id selects the
    single-record branch: it is not 0, the keys of the table start at 1):
    a caller who is neither the owner nor an admin gets 403; an admin gets
    the formatted record, with status 200. *)
Theorem get_one_authorization
    (db : Db) (user_id record_id : Z) (req : Request) (record : RecordModel.t) :
  record_id <> 0 ->
  records db !! record_id = Some record ->
  (RecordModel.user_id record <> user_id -> is_admin db user_id = false ->
     RecordResource.get db user_id (Some record_id) req
       = RetCode (Message "Unauthorized access") 403)
  /\ (is_admin db user_id = true ->
        RecordResource.get db user_id (Some record_id) req
          = RetBody (OneRecord (RecordResource.format_record record))
        /\ status_code (RecordResource.get db user_id (Some record_id) req)
           = 200).
Proof.
  intros Hid Hget. unfold RecordResource.get, RecordResource.record_id_truthy.
  apply Z.eqb_neq in Hid. rewrite Hid, Hget. split.
  - intros Hne Hadm. apply Z.eqb_neq in Hne. rewrite Hne, Hadm. reflexivity.
  - intros Hadm. rewrite Hadm, andb_false_r. split; reflexivity.
Qed.

(** Bob is refused on the report of Alice; the admin reads it. *)
Lemma get_one_authorization_witness :
  RecordResource.get Fixture.db Fixture.bob (Some 1) (Fixture.form None None [])
    = RetCode (Message "Unauthorized access") 403
  /\ RecordResource.get Fixture.db Fixture.root (Some 1)
       (Fixture.form None None [])
     = RetBody (OneRecord (RecordResource.format_record Fixture.report)).
Proof.
  split.
  - apply (get_one_authorization Fixture.db Fixture.bob 1
             (Fixture.form None None []) Fixture.report);
      [discriminate | reflexivity | discriminate | reflexivity].
  - apply (get_one_authorization Fixture.db Fixture.root 1
             (Fixture.form None None []) Fixture.report);
      [discriminate | reflexivity | reflexivity].
Defined.

(** *** The status lock *)

(** C4.  On an existing record whose status is "under investigation",
    "rejected" or "resolved", a PUT or a DELETE by the owner is answered
    with 400 and the database is left as it was. *)
Theorem locked_record_put_delete_rejected
    (db : Db) (env : Env) (user_id record_id : Z) (req : Request)
    (record : RecordModel.t) :
  records db !! record_id = Some record ->
  RecordModel.user_id record = user_id ->
  RecordModel.status record = "under investigation"
    \/ RecordModel.status record = "rejected"
    \/ RecordModel.status record = "resolved" ->
  RecordResource.put db env user_id record_id req
    = (RetCode (Message "Cannot edit record with current status") 400, db)
  /\ RecordResource.delete db env user_id record_id
    = (RetCode (Message "Cannot delete record with current status") 400, db).
Proof.
  intros Hget Hown Hst.
  unfold RecordResource.put, RecordResource.delete. rewrite Hget.
  apply Z.eqb_eq in Hown. rewrite Hown. cbn [negb].
  apply str_in_locked in Hst. rewrite Hst. split; reflexivity.
Qed.

(** Bob can neither edit nor delete his resolved report. *)
Lemma locked_record_put_delete_rejected_witness :
  RecordResource.put Fixture.db Fixture.env Fixture.bob 2
      (Fixture.form (Some (float_of_Z 1)) (Some (float_of_Z 36)) [])
    = (RetCode (Message "Cannot edit record with current status") 400,
       Fixture.db)
  /\ RecordResource.delete Fixture.db Fixture.env Fixture.bob 2
    = (RetCode (Message "Cannot delete record with current status") 400,
       Fixture.db).
Proof.
  apply (locked_record_put_delete_rejected Fixture.db Fixture.env Fixture.bob 2
           _ Fixture.closed_report).
  - reflexivity.
  - reflexivity.
  - right. right. reflexivity.
Defined.

(** *** Create *)

Lemma passes_validation_type (req : Request) :
  passes_validation req ->
  exists t, form_type req = Some t
            /\ str_in t ["Red-Flag"; "Intervention"] = true.
Proof.
  intros ([H | H] & _); rewrite H; eexists; split; reflexivity.
Qed.

(** C1, as the code has it.  A create request that passes validation, when
    every upload and the database transaction complete without raising, is
    answered with 201; the record returned, which is the record stored
    under the next key, has status "pending" and the caller as its owner. *)
Theorem post_valid_created
    (db : Db) (env : Env) (user_id : Z) (req : Request)
    (image_urls : list string) :
  passes_validation req ->
  uploaded env (files_images req) image_urls ->
  db_error env = None ->
  exists record,
    RecordResource.post db env user_id req
      = (RetCode (MessageRecord "Record created successfully"
                    (RecordResource.format_record record)) 201,
         mkDb (users db) (<[next_id db := record]> (records db))
           (next_id db + 1))
    /\ RecordModel.status record = "pending"
    /\ RecordModel.user_id record = user_id
    /\ RecordModel.images record = image_urls
    /\ Formatted.status (RecordResource.format_record record) = "pending"
    /\ Formatted.user_id (RecordResource.format_record record) = user_id.
Proof.
  intros Hval Hup Hdb. apply upload_files_returns in Hup.
  destruct (passes_validation_type req Hval) as (t & Ht & Hin).
  destruct Hval as (_ & Hlat & Hlon).
  unfold RecordResource.post, RecordResource.post_try.
  rewrite Ht, Hin. cbn [negb].
  destruct (form_latitude req) as [latitude|] eqn:Elat.
  - rewrite (Hlat latitude eq_refl). cbn [negb].
    destruct (form_longitude req) as [longitude|] eqn:Elon.
    + rewrite (Hlon longitude eq_refl). cbn [negb].
      rewrite Hup, Hdb. eexists. split; [reflexivity|].
      repeat split; reflexivity.
    + rewrite Hup, Hdb. eexists. split; [reflexivity|].
      repeat split; reflexivity.
  - destruct (form_longitude req) as [longitude|] eqn:Elon.
    + rewrite (Hlon longitude eq_refl). cbn [negb].
      rewrite Hup, Hdb. eexists. split; [reflexivity|].
      repeat split; reflexivity.
    + rewrite Hup, Hdb. eexists. split; [reflexivity|].
      repeat split; reflexivity.
Qed.

Lemma fixture_form_passes_validation (files : list FileStorage) :
  passes_validation (Fixture.form (Some (float_of_Z 2)) None files).
Proof.
  split; [left; reflexivity|]. split.
  - intros latitude H. injection H as <-. reflexivity.
  - intros longitude H. discriminate H.
Qed.

(** Alice files a report with one photo. *)
Lemma post_valid_created_witness :
  exists record,
    RecordResource.post Fixture.db Fixture.env Fixture.alice
      (Fixture.form (Some (float_of_Z 2)) None [Fixture.photo])
    = (RetCode (MessageRecord "Record created successfully"
                  (RecordResource.format_record record)) 201,
       mkDb (users Fixture.db) (<[3 := record]> (records Fixture.db)) 4)
    /\ RecordModel.status record = "pending"
    /\ RecordModel.user_id record = Fixture.alice
    /\ RecordModel.images record = ["https://media/c.jpg"]
    /\ Formatted.status (RecordResource.format_record record) = "pending"
    /\ Formatted.user_id (RecordResource.format_record record)
       = Fixture.alice.
Proof.
  apply (post_valid_created Fixture.db Fixture.env Fixture.alice
           (Fixture.form (Some (float_of_Z 2)) None [Fixture.photo])
           ["https://media/c.jpg"]).
  - apply fixture_form_passes_validation.
  - repeat constructor.
  - reflexivity.
Defined.

(** C1, as it is worded, fails when the media service raises: the request
    passes validation and the answer is the 500 of the [except] branch. *)
Lemma valid_create_upload_raises :
  ~ valid_create_returns_201 Fixture.db Fixture.env_upload_raises Fixture.alice
      (Fixture.form (Some (float_of_Z 2)) None [Fixture.photo]).
Proof.
  intros H.
  destruct (H (fixture_form_passes_validation [Fixture.photo])) as [Hcode _].
  vm_compute in Hcode. discriminate Hcode.
Qed.

(** When an upload or the transaction raises, the answer is a 500 and
    nothing is stored. *)
Lemma post_raises (db : Db) (env : Env) (user_id : Z) (req : Request)
    (e : string) :
  RecordResource.post_try db env user_id req = Raises e ->
  RecordResource.post db env user_id req
    = (RetCode (Message ("Error creating record: " ++ e)) 500, db).
Proof.
  unfold RecordResource.post. intros ->. reflexivity.
Qed.

(** *** Coordinates out of range *)

Lemma post_try_out_of_range (db : Db) (env : Env) (user_id : Z) (req : Request) :
  out_of_range req ->
  exists message,
    RecordResource.post_try db env user_id req
      = Returns (inl (RetCode (Message message) 400)).
Proof.
  intros Hout. unfold RecordResource.post_try.
  destruct (form_type req) as [t|]; [|eauto].
  destruct (negb (str_in t _)); [eauto|].
  destruct (form_latitude req) as [latitude|] eqn:Elat.
  - destruct (between (-90) latitude 90) eqn:Hlat; cbn [negb]; [|eauto].
    destruct (form_longitude req) as [longitude|] eqn:Elon.
    + destruct (between (-180) longitude 180) eqn:Hlon; cbn [negb]; [|eauto].
      exfalso. destruct Hout as [(x & Hx & Hb) | (x & Hx & Hb)];
        congruence.
    + exfalso. destruct Hout as [(x & Hx & Hb) | (x & Hx & Hb)];
        congruence.
  - destruct (form_longitude req) as [longitude|] eqn:Elon.
    + destruct (between (-180) longitude 180) eqn:Hlon; cbn [negb]; [|eauto].
      exfalso. destruct Hout as [(x & Hx & Hb) | (x & Hx & Hb)];
        congruence.
    + exfalso. destruct Hout as [(x & Hx & Hb) | (x & Hx & Hb)];
        congruence.
Qed.

Lemma put_try_out_of_range (env : Env) (req : Request) (record : RecordModel.t) :
  out_of_range req ->
  exists message,
    RecordResource.put_try env req record
      = Returns (inl (RetCode (Message message) 400)).
Proof.
  intros Hout.
  destruct (RecordResource.put_try env req record) as [[response|record']|e]
    eqn:Htry.
  - destruct (put_try_inl _ _ _ _ Htry) as (message & ->). eauto.
  - exfalso. apply put_try_inr in Htry.
    destruct Htry as (t & title & description & latitude & longitude & urls
                      & _ & _ & _ & _ & Elat & Elon & Hlat & Hlon & _).
    destruct Hout as [(x & Hx & Hb) | (x & Hx & Hb)]; congruence.
  - exfalso. unfold RecordResource.put_try in Htry.
    destruct (RecordResource.put_type (form_type req) record) as [resp|r1];
      [discriminate Htry|].
    destruct (RecordResource.all_fields _ _ _ _ _) eqn:Hall;
      cbn [negb] in Htry; [|discriminate Htry].
    apply all_fields_true in Hall.
    destruct Hall as (_ & Hti & Hde & Hla & Hlo).
    destruct (form_title req) as [title|]; [|discriminate Hti].
    destruct (form_description req) as [description|]; [|discriminate Hde].
    destruct (form_latitude req) as [latitude|] eqn:Elat; [|discriminate Hla].
    destruct (form_longitude req) as [longitude|] eqn:Elon; [|discriminate Hlo].
    destruct (between (-90) latitude 90) eqn:Hlat; cbn [negb] in Htry;
      [|discriminate Htry].
    destruct (between (-180) longitude 180) eqn:Hlon; cbn [negb] in Htry;
      [|discriminate Htry].
    destruct Hout as [(x & Hx & Hb) | (x & Hx & Hb)]; congruence.
Qed.

(** C5, as the code has it.  A create request with a latitude outside
    [-90, 90] or a longitude outside [-180, 180] is answered with 400 and
    nothing is created.  An update request with such a coordinate never
    changes the database, and is answered with 400 when the record exists
    and the caller owns it. *)
Theorem out_of_range_rejected
    (db : Db) (env : Env) (user_id record_id : Z) (req : Request) :
  out_of_range req ->
  (status_code (fst (RecordResource.post db env user_id req)) = 400
   /\ snd (RecordResource.post db env user_id req) = db)
  /\ snd (RecordResource.put db env user_id record_id req) = db
  /\ (forall record,
        records db !! record_id = Some record ->
        RecordModel.user_id record = user_id ->
        status_code (fst (RecordResource.put db env user_id record_id req))
          = 400).
Proof.
  intros Hout. split; [|split].
  - destruct (post_try_out_of_range db env user_id req Hout) as (message & H).
    unfold RecordResource.post. rewrite H. split; reflexivity.
  - unfold RecordResource.put.
    destruct (records db !! record_id) as [record|]; [|reflexivity].
    destruct (negb _); [reflexivity|].
    destruct (str_in _ _); [reflexivity|].
    destruct (put_try_out_of_range env req record Hout) as (message & ->).
    reflexivity.
  - intros record Hget Hown. unfold RecordResource.put. rewrite Hget.
    apply Z.eqb_eq in Hown. rewrite Hown. cbn [negb].
    destruct (str_in _ _); [reflexivity|].
    destruct (put_try_out_of_range env req record Hout) as (message & ->).
    reflexivity.
Qed.

Lemma fixture_form_out_of_range (longitude : option float)
    (files : list FileStorage) :
  out_of_range (Fixture.form (Some Fixture.f100) longitude files).
Proof.
  left. exists Fixture.f100. split; reflexivity.
Qed.

(** Latitude 100.0: Alice can neither create a report nor update hers. *)
Lemma out_of_range_rejected_witness :
  status_code (fst (RecordResource.post Fixture.db Fixture.env Fixture.alice
                      (Fixture.form (Some Fixture.f100) None []))) = 400
  /\ status_code (fst (RecordResource.put Fixture.db Fixture.env Fixture.alice 1
                         (Fixture.form (Some Fixture.f100) None []))) = 400.
Proof.
  destruct (out_of_range_rejected Fixture.db Fixture.env Fixture.alice 1
              (Fixture.form (Some Fixture.f100) None [])
              (fixture_form_out_of_range None []))
    as ((Hpost & _) & _ & Hput).
  split; [exact Hpost|].
  apply (Hput Fixture.report); reflexivity.
Defined.

(** C5, as it is worded, fails on an update that names no stored record:
    the answer is 404, whatever the coordinates. *)
Lemma out_of_range_update_missing_record :
  ~ out_of_range_returns_400 Fixture.db Fixture.env Fixture.alice 99
      (Fixture.form (Some Fixture.f100) None []).
Proof.
  intros H.
  destruct (H (fixture_form_out_of_range None [])) as (_ & Hcode & _).
  vm_compute in Hcode. discriminate Hcode.
Qed.

(** *** The list request *)

Lemma elem_of_query_all (db : Db) (r : RecordModel.t) :
  r ∈ query_all db <-> exists k, records db !! k = Some r.
Proof.
  unfold query_all. rewrite list_elem_of_fmap. split.
  - intros ([k r'] & -> & Hin). exists k. now apply elem_of_map_to_list.
  - intros (k & Hk). exists (k, r). split; [reflexivity|].
    now apply elem_of_map_to_list.
Qed.

Lemma elem_of_query_filter_by_user_id (db : Db) (user_id : Z)
    (r : RecordModel.t) :
  r ∈ query_filter_by_user_id db user_id <->
  (exists k, records db !! k = Some r) /\ RecordModel.user_id r = user_id.
Proof.
  unfold query_filter_by_user_id.
  rewrite list_elem_of_In, filter_In, <- list_elem_of_In, elem_of_query_all.
  rewrite Z.eqb_eq. reflexivity.
Qed.

(** A caller who is not an admin receives the records of the table whose
    owner is the caller, all of them, whatever [page] and [per_page] are. *)
Lemma get_list_non_admin (db : Db) (user_id : Z) (req : Request) :
  is_admin db user_id = false ->
  RecordResource.get db user_id None req
    = RetBody (RecordList (map RecordResource.format_record
                             (query_filter_by_user_id db user_id))).
Proof.
  intros Hadm. unfold RecordResource.get. simpl. rewrite Hadm. reflexivity.
Qed.

(** An admin receives no body at all: the handler returns [None]. *)
Lemma get_list_admin (db : Db) (user_id : Z) (req : Request) :
  is_admin db user_id = true ->
  RecordResource.get db user_id None req = RetNone.
Proof.
  intros Hadm. unfold RecordResource.get. simpl. rewrite Hadm. reflexivity.
Qed.

(** C6.  The list request of the admin of the fixture, whose table holds
    two records: the handler returns [None], not the records, while the
    same request by Bob returns the one record Bob owns. *)
Theorem get_list_admin_returns_none :
  is_admin Fixture.db Fixture.root = true
  /\ length (query_all Fixture.db) = 2%nat
  /\ RecordResource.get Fixture.db Fixture.root None (Fixture.form None None [])
     = RetNone
  /\ RecordResource.get Fixture.db Fixture.bob None (Fixture.form None None [])
     = RetBody (RecordList [RecordResource.format_record Fixture.closed_report]).
Proof.
  repeat split; vm_compute; reflexivity.
Qed.

(** *** Update *)

(** C7.  An update that carries at least one file part and succeeds stores,
    as the images of the record, exactly the URLs the uploader returned for
    the uploaded files, in the order of submission: the list is built from
    an empty one, the images the record had are not in it.  The record in
    the answer is the stored one. *)
Theorem put_replaces_images
    (db : Db) (env : Env) (user_id record_id : Z) (req : Request) :
  files_images req <> [] ->
  status_code (fst (RecordResource.put db env user_id record_id req)) = 200 ->
  exists record' image_urls,
    uploaded env (files_images req) image_urls
    /\ records (snd (RecordResource.put db env user_id record_id req))
         !! record_id = Some record'
    /\ RecordModel.images record' = image_urls
    /\ returned_record (fst (RecordResource.put db env user_id record_id req))
       = Some (RecordResource.format_record record').
Proof.
  intros Hfiles H200.
  destruct (put_200 _ _ _ _ _ H200)
    as (record & record' & Hget & Hown & Hlock & Htry & Hput).
  rewrite Hput. cbn [fst snd records returned_record].
  apply put_try_inr in Htry.
  destruct Htry as (t & title & description & latitude & longitude & urls
                    & _ & _ & _ & _ & _ & _ & _ & _ & Himg & _ & Hrec).
  exists record', urls. repeat split.
  - destruct (files_images req) as [|file rest]; [contradiction|].
    now apply upload_files_returns.
  - apply lookup_insert_eq.
  - rewrite Hrec. reflexivity.
Qed.

(** Alice replaces the two images of her report by one new photo. *)
Lemma put_replaces_images_witness :
  RecordModel.images Fixture.report = ["a.jpg"; "b.jpg"]
  /\ exists record' image_urls,
       uploaded Fixture.env [Fixture.photo] image_urls
       /\ records (snd (RecordResource.put Fixture.db Fixture.env Fixture.alice 1
                          (Fixture.form (Some (float_of_Z 2))
                             (Some (float_of_Z 3)) [Fixture.photo])))
            !! 1 = Some record'
       /\ RecordModel.images record' = image_urls
       /\ returned_record
            (fst (RecordResource.put Fixture.db Fixture.env Fixture.alice 1
                    (Fixture.form (Some (float_of_Z 2))
                       (Some (float_of_Z 3)) [Fixture.photo])))
          = Some (RecordResource.format_record record').
Proof.
  split; [reflexivity|].
  apply (put_replaces_images Fixture.db Fixture.env Fixture.alice 1
           (Fixture.form (Some (float_of_Z 2)) (Some (float_of_Z 3))
              [Fixture.photo])).
  - discriminate.
  - vm_compute. reflexivity.
Defined.

(** C9.  An update leaves the key, the owner, the status and the creation
    time of every stored record as they were, and every record other than
    the one it names untouched; the users table and the next key do not
    change.  Hence only type, title, description, latitude, longitude,
    images and updated_at of the named record may differ afterwards. *)
Theorem put_frame
    (db : Db) (env : Env) (user_id record_id : Z) (req : Request)
    (k : Z) (record : RecordModel.t) :
  records db !! k = Some record ->
  users (snd (RecordResource.put db env user_id record_id req)) = users db
  /\ next_id (snd (RecordResource.put db env user_id record_id req))
     = next_id db
  /\ exists record',
       records (snd (RecordResource.put db env user_id record_id req)) !! k
         = Some record'
       /\ RecordModel.id record' = RecordModel.id record
       /\ RecordModel.user_id record' = RecordModel.user_id record
       /\ RecordModel.status record' = RecordModel.status record
       /\ RecordModel.created_at record' = RecordModel.created_at record
       /\ (k <> record_id -> record' = record).
Proof.
  intros Hk.
  destruct (put_cases db env user_id record_id req)
    as [(Hdb & _) | (r & r' & Hget & _ & _ & Htry & Hput)].
  - rewrite Hdb. repeat split. exists record. repeat split; assumption.
  - rewrite Hput. cbn [snd users records next_id]. repeat split.
    destruct (decide (k = record_id)) as [-> | Hne].
    + rewrite Hget in Hk. injection Hk as <-.
      exists r'. rewrite lookup_insert_eq.
      apply put_try_inr in Htry.
      destruct Htry as (t & title & description & latitude & longitude & urls
                        & _ & _ & _ & _ & _ & _ & _ & _ & _ & _ & Hrec).
      rewrite Hrec. repeat split. intros Hne. contradiction.
    + exists record. rewrite lookup_insert_ne by congruence.
      repeat split; assumption.
Qed.

(** The update of Alice's report. *)
Lemma put_frame_witness :
  exists record',
    records (snd (RecordResource.put Fixture.db Fixture.env Fixture.alice 1
                    (Fixture.form (Some (float_of_Z 2))
                       (Some (float_of_Z 3)) [Fixture.photo]))) !! 1
      = Some record'
    /\ RecordModel.id record' = 1
    /\ RecordModel.user_id record' = Fixture.alice
    /\ RecordModel.status record' = "pending"
    /\ RecordModel.created_at record' = Some 10
    /\ (1 <> 1 -> record' = Fixture.report).
Proof.
  apply (put_frame Fixture.db Fixture.env Fixture.alice 1
           (Fixture.form (Some (float_of_Z 2)) (Some (float_of_Z 3))
              [Fixture.photo]) 1 Fixture.report).
  reflexivity.
Defined.

(** An update adds no record. *)
Lemma put_no_new_record
    (db : Db) (env : Env) (user_id record_id : Z) (req : Request) (k : Z) :
  records db !! k = None ->
  records (snd (RecordResource.put db env user_id record_id req)) !! k = None.
Proof.
  intros Hk.
  destruct (put_cases db env user_id record_id req)
    as [(Hdb & _) | (r & r' & Hget & _ & _ & _ & Hput)].
  - rewrite Hdb. assumption.
  - rewrite Hput. cbn [snd records].
    rewrite lookup_insert_ne by congruence. assumption.
Qed.

(** *** The type of a record *)

Lemma post_invalid_type (db : Db) (env : Env) (user_id : Z) (req : Request) :
  form_type req <> Some "Red-Flag" ->
  form_type req <> Some "Intervention" ->
  RecordResource.post db env user_id req
    = (RetCode (Message "Type must be Red-Flag or Intervention") 400, db).
Proof.
  intros H1 H2. unfold RecordResource.post, RecordResource.post_try.
  destruct (form_type req) as [t|]; [|reflexivity].
  destruct (str_in t ["Red-Flag"; "Intervention"]) eqn:Hin; [|reflexivity].
  apply str_in_In in Hin. simpl in Hin.
  destruct Hin as [<- | [<- | []]]; congruence.
Qed.

Lemma post_types_ok (db : Db) (env : Env) (user_id : Z) (req : Request) :
  types_ok db -> types_ok (snd (RecordResource.post db env user_id req)).
Proof.
  intros Hok. unfold RecordResource.post.
  destruct (RecordResource.post_try db env user_id req)
    as [[response|record]|e] eqn:Htry; cbn [snd]; try exact Hok.
  intros k r. cbn [records]. rewrite lookup_insert.
  destruct (decide (RecordModel.id record = k)) as [_|_]; [|apply Hok].
  intros Hr. injection Hr as <-.
  unfold RecordResource.post_try in Htry.
  destruct (form_type req) as [t|]; [|discriminate Htry].
  destruct (str_in t ["Red-Flag"; "Intervention"]) eqn:Hin;
    cbn [negb] in Htry; [|discriminate Htry].
  repeat match type of Htry with
         | (if ?c then _ else _) = _ => destruct c; [discriminate Htry|]
         end.
  destruct (upload_files env (files_images req)); [|discriminate Htry].
  destruct (db_error env); [discriminate Htry|].
  injection Htry as <-. cbn [RecordModel.type].
  apply str_in_In in Hin. simpl in Hin. unfold valid_type.
  destruct Hin as [<- | [<- | []]]; tauto.
Qed.

Lemma put_types_ok (db : Db) (env : Env) (user_id record_id : Z)
    (req : Request) :
  types_ok db ->
  types_ok (snd (RecordResource.put db env user_id record_id req)).
Proof.
  intros Hok.
  destruct (put_cases db env user_id record_id req)
    as [(Hdb & _) | (r & r' & Hget & _ & _ & Htry & Hput)].
  - rewrite Hdb. exact Hok.
  - rewrite Hput. cbn [snd]. intros k x. cbn [records]. rewrite lookup_insert.
    destruct (decide (record_id = k)) as [_|_]; [|apply Hok].
    intros Hx. injection Hx as <-.
    apply put_try_inr in Htry.
    destruct Htry as (t & title & description & latitude & longitude & urls
                      & _ & [[_ Hty] | [_ Hty]] & _).
    + left. exact Hty.
    + right. exact Hty.
Qed.

Lemma delete_types_ok (db : Db) (env : Env) (user_id record_id : Z) :
  types_ok db ->
  types_ok (snd (RecordResource.delete db env user_id record_id)).
Proof.
  intros Hok. unfold RecordResource.delete.
  destruct (records db !! record_id) as [record|]; [|exact Hok].
  destruct (negb _); [exact Hok|].
  destruct (str_in _ _); [exact Hok|].
  destruct (db_error env); [exact Hok|].
  cbn [snd]. intros k x. cbn [records]. intros Hx.
  apply lookup_delete_Some in Hx. destruct Hx as [_ Hx]. exact (Hok k x Hx).
Qed.

Lemma step_types_ok (db db' : Db) : types_ok db -> step db db' -> types_ok db'.
Proof.
  intros Hok Hstep. destruct Hstep.
  - now apply post_types_ok.
  - now apply put_types_ok.
  - now apply delete_types_ok.
Qed.

Lemma reachable_types_ok (db : Db) : reachable db -> types_ok db.
Proof.
  induction 1 as [us n _ | db db' _ IH Hstep].
  - intros k r Hr. cbn [records] in Hr. rewrite lookup_empty in Hr.
    discriminate Hr.
  - exact (step_types_ok db db' IH Hstep).
Qed.

(** C8.  The type of a record is "Red-Flag" or "Intervention":
    - a create request with any other type (or none) is answered with 400
      and stores nothing;
    - after a successful update the type of the record is "Red-Flag" when
      the type of the form is "red-flag" in any letter case, and
      "Intervention" when it is "intervention" in any letter case, and the
      form has one of the two;
    - hence every record of a database the handlers built from an empty
      table has one of the two types. *)
Theorem record_type_invariant
    (db : Db) (env : Env) (user_id record_id : Z) (req : Request) :
  (form_type req <> Some "Red-Flag" -> form_type req <> Some "Intervention" ->
     RecordResource.post db env user_id req
       = (RetCode (Message "Type must be Red-Flag or Intervention") 400, db))
  /\ (status_code (fst (RecordResource.put db env user_id record_id req)) = 200 ->
        exists t record',
          form_type req = Some t
          /\ records (snd (RecordResource.put db env user_id record_id req))
               !! record_id = Some record'
          /\ (lower t = "red-flag" /\ RecordModel.type record' = "Red-Flag"
              \/ lower t = "intervention"
                 /\ RecordModel.type record' = "Intervention"))
  /\ (reachable db ->
        forall k r, records db !! k = Some r ->
          RecordModel.type r = "Red-Flag" \/ RecordModel.type r = "Intervention").
Proof.
  split; [|split].
  - apply post_invalid_type.
  - intros H200.
    destruct (put_200 _ _ _ _ _ H200)
      as (record & record' & Hget & Hown & Hlock & Htry & Hput).
    rewrite Hput. cbn [snd records].
    apply put_try_inr in Htry.
    destruct Htry as (t & title & description & latitude & longitude & urls
                      & Ht & Hty & _).
    exists t, record'. split; [exact Ht|]. split; [apply lookup_insert_eq|].
    exact Hty.
  - intros Hreach. exact (reachable_types_ok db Hreach).
Qed.

(** A create with the type in lower case is refused; an update with the
    type "iNTERVENTION" stores "Intervention"; the database after a create
    from the empty table holds records of the two types only. *)
Lemma record_type_invariant_witness :
  RecordResource.post Fixture.db Fixture.env Fixture.alice
      (Fixture.form_with_type (Some "red-flag"))
    = (RetCode (Message "Type must be Red-Flag or Intervention") 400,
       Fixture.db)
  /\ (exists t record',
        Some "iNTERVENTION" = Some t
        /\ records (snd (RecordResource.put Fixture.db Fixture.env Fixture.alice
                           1 (Fixture.form_with_type (Some "iNTERVENTION"))))
             !! 1 = Some record'
        /\ (lower t = "red-flag" /\ RecordModel.type record' = "Red-Flag"
            \/ lower t = "intervention"
               /\ RecordModel.type record' = "Intervention"))
  /\ (forall k r,
        records (snd (RecordResource.post (mkDb ∅ ∅ 1) Fixture.env Fixture.alice
                        (Fixture.form_with_type (Some "Intervention")))) !! k = Some r ->
        RecordModel.type r = "Red-Flag" \/ RecordModel.type r = "Intervention").
Proof.
  split; [|split].
  - apply (record_type_invariant Fixture.db Fixture.env Fixture.alice 1
             (Fixture.form_with_type (Some "red-flag"))); discriminate.
  - apply (record_type_invariant Fixture.db Fixture.env Fixture.alice 1
             (Fixture.form_with_type (Some "iNTERVENTION"))).
    vm_compute. reflexivity.
  - apply (record_type_invariant _ Fixture.env Fixture.alice 1
             (Fixture.form_with_type (Some "Intervention"))).
    apply (reachable_step (mkDb ∅ ∅ 1)); [apply reachable_init; lia|].
    apply step_post.
Defined.

(** *** A coordinate equal to zero *)

(** C10.  An update by the owner of a record that is not locked, with a
    latitude or a longitude equal to 0.0, is answered with 400 and changes
    nothing, although 0.0 lies inside both ranges; when the type of the form
    is one of the two, the answer is the one of the check that all the
    fields are present, which takes 0.0 for a missing value. *)
Theorem put_zero_coordinate_rejected
    (db : Db) (env : Env) (user_id record_id : Z) (req : Request)
    (record : RecordModel.t) (x : float) :
  records db !! record_id = Some record ->
  RecordModel.user_id record = user_id ->
  ~ (RecordModel.status record = "under investigation"
     \/ RecordModel.status record = "rejected"
     \/ RecordModel.status record = "resolved") ->
  form_latitude req = Some x \/ form_longitude req = Some x ->
  SFeqb x (float_of_Z 0) = true ->
  status_code (fst (RecordResource.put db env user_id record_id req)) = 400
  /\ snd (RecordResource.put db env user_id record_id req) = db
  /\ between (-90) x 90 = true
  /\ between (-180) x 180 = true
  /\ (forall t, form_type req = Some t ->
        lower t = "red-flag" \/ lower t = "intervention" ->
        fst (RecordResource.put db env user_id record_id req)
          = RetCode (Message
              "All fields (type, title, description, latitude, longitude) are required")
              400).
Proof.
  intros Hget Hown Hst Hx Hzero.
  apply float_eq_zero_falsy in Hzero.
  destruct (zero_in_ranges x Hzero) as [Hlat Hlon].
  assert (Hall : RecordResource.all_fields (form_type req) (form_title req)
                   (form_description req) (form_latitude req)
                   (form_longitude req) = false).
  { unfold RecordResource.all_fields.
    destruct Hx as [-> | ->]; cbn [opt_float_truthy]; rewrite Hzero.
    - rewrite andb_false_r. reflexivity.
    - apply andb_false_r. }
  assert (Hlock : str_in (RecordModel.status record) locked_statuses = false).
  { destruct (str_in _ _) eqn:E; [|reflexivity].
    apply str_in_locked in E. contradiction. }
  apply Z.eqb_eq in Hown.
  unfold RecordResource.put. rewrite Hget, Hown, Hlock. cbn [negb].
  unfold RecordResource.put_try. rewrite Hall. cbn [negb].
  repeat split; try assumption.
  - destruct (RecordResource.put_type (form_type req) record) as [resp|r1] eqn:Hty;
      [|reflexivity].
    apply put_type_inl in Hty. rewrite Hty. reflexivity.
  - destruct (RecordResource.put_type (form_type req) record); reflexivity.
  - intros t Ht Hcase. rewrite Ht.
    unfold RecordResource.put_type.
    assert (Hin : str_in (lower t) ["red-flag"; "intervention"] = true).
    { apply str_in_In. simpl. destruct Hcase as [-> | ->]; tauto. }
    assert (Htr : str_truthy (Some t) = true).
    { destruct t; [|reflexivity]. destruct Hcase; discriminate. }
    rewrite Htr. change (default EmptyString (Some t)) with t. rewrite Hin. reflexivity.
Qed.

(** Alice moves her report to latitude 0.0. *)
Lemma put_zero_coordinate_rejected_witness :
  status_code
    (fst (RecordResource.put Fixture.db Fixture.env Fixture.alice 1
            (Fixture.form (Some (float_of_Z 0)) (Some (float_of_Z 36)) [])))
    = 400
  /\ fst (RecordResource.put Fixture.db Fixture.env Fixture.alice 1
            (Fixture.form (Some (float_of_Z 0)) (Some (float_of_Z 36)) []))
     = RetCode (Message
         "All fields (type, title, description, latitude, longitude) are required")
         400.
Proof.
  destruct (put_zero_coordinate_rejected Fixture.db Fixture.env Fixture.alice 1
              (Fixture.form (Some (float_of_Z 0)) (Some (float_of_Z 36)) [])
              Fixture.report (float_of_Z 0))
    as (Hcode & _ & _ & _ & Hmsg).
  - reflexivity.
  - reflexivity.
  - intros [H | [H | H]]; discriminate H.
  - left. reflexivity.
  - reflexivity.
  - split; [exact Hcode|].
    apply (Hmsg "Red-Flag"); [reflexivity | left; reflexivity].
Defined.

(** *** The outcomes of POST and DELETE *)

Lemma not_passes_type (req : Request) :
  (forall t, form_type req = Some t ->
             str_in t ["Red-Flag"; "Intervention"] = false) ->
  ~ passes_validation req.
Proof.
  intros H ([Ht | Ht] & _); specialize (H _ Ht); discriminate H.
Qed.

(** The three outcomes of [post]: a 400 for a request that fails
    validation, a 500 carrying the text of what an upload or the session
    raised, or a 201 with the record stored under the next key.  Only the
    last changes the database. *)
Lemma post_cases (db : Db) (env : Env) (user_id : Z) (req : Request) :
  (~ passes_validation req
   /\ exists message,
        RecordResource.post db env user_id req
          = (RetCode (Message message) 400, db))
  \/ (passes_validation req
      /\ exists e,
           (upload_files env (files_images req) = Raises e
            \/ (exists image_urls,
                  upload_files env (files_images req) = Returns image_urls)
               /\ db_error env = Some e)
           /\ RecordResource.post db env user_id req
              = (RetCode (Message ("Error creating record: " ++ e)) 500, db))
  \/ (passes_validation req
      /\ exists t image_urls,
           form_type req = Some t
           /\ upload_files env (files_images req) = Returns image_urls
           /\ db_error env = None
           /\ RecordResource.post db env user_id req
              = (let record :=
                   RecordModel.mk (next_id db) t
                     (strip (default EmptyString (form_title req)))
                     (strip (default EmptyString (form_description req)))
                     (form_latitude req) (form_longitude req) image_urls
                     "pending" user_id (Some (now env 0)) (Some (now env 1)) in
                 (RetCode (MessageRecord "Record created successfully"
                             (RecordResource.format_record record)) 201,
                  mkDb (users db) (<[next_id db := record]> (records db))
                    (next_id db + 1)))).
Proof.
  unfold RecordResource.post, RecordResource.post_try.
  destruct (form_type req) as [t|] eqn:Ht.
  2: { left. split; [|eauto]. apply not_passes_type. intros t H. congruence. }
  destruct (str_in t ["Red-Flag"; "Intervention"]) eqn:Hin; cbn [negb].
  2: { left. split; [|eauto]. apply not_passes_type.
       intros t' H. congruence. }
  assert (Hty : form_type req = Some "Red-Flag"
                \/ form_type req = Some "Intervention").
  { apply str_in_In in Hin. simpl in Hin. rewrite Ht.
    destruct Hin as [<- | [<- | []]]; tauto. }
  destruct (match form_latitude req with
            | Some latitude => negb (between (-90) latitude 90)
            | None => false
            end) eqn:Hlat.
  { left. split; [|eauto]. intros (_ & H & _).
    destruct (form_latitude req) as [x|]; [|discriminate Hlat].
    rewrite (H x eq_refl) in Hlat. discriminate Hlat. }
  destruct (match form_longitude req with
            | Some longitude => negb (between (-180) longitude 180)
            | None => false
            end) eqn:Hlon.
  { left. split; [|eauto]. intros (_ & _ & H).
    destruct (form_longitude req) as [x|]; [|discriminate Hlon].
    rewrite (H x eq_refl) in Hlon. discriminate Hlon. }
  assert (Hval : passes_validation req).
  { split; [exact Hty|]. split.
    - intros x Hx. rewrite Hx in Hlat. now apply negb_false_iff in Hlat.
    - intros x Hx. rewrite Hx in Hlon. now apply negb_false_iff in Hlon. }
  right.
  destruct (upload_files env (files_images req)) as [image_urls|e] eqn:Hup.
  2: { left. split; [exact Hval|]. exists e. split; [left|]; reflexivity. }
  destruct (db_error env) as [e|] eqn:Hdb.
  { left. split; [exact Hval|]. exists e. split; [right; eauto|reflexivity]. }
  right. split; [exact Hval|]. exists t, image_urls. repeat split.
Qed.

(** The outcomes of [delete]. *)
Lemma delete_cases (db : Db) (env : Env) (user_id record_id : Z) :
  (records db !! record_id = None
   /\ RecordResource.delete db env user_id record_id
      = (RetCode (Message "Record not found") 404, db))
  \/ (exists record,
        records db !! record_id = Some record
        /\ ((RecordModel.user_id record <> user_id
             /\ RecordResource.delete db env user_id record_id
                = (RetCode (Message "Unauthorized to delete this record") 403,
                   db))
            \/ (RecordModel.user_id record = user_id
                /\ str_in (RecordModel.status record) locked_statuses = true
                /\ RecordResource.delete db env user_id record_id
                   = (RetCode (Message "Cannot delete record with current status")
                        400, db))
            \/ (RecordModel.user_id record = user_id
                /\ str_in (RecordModel.status record) locked_statuses = false
                /\ exists e,
                     db_error env = Some e
                     /\ RecordResource.delete db env user_id record_id
                        = (RetCode (Message ("Error deleting record: " ++ e))
                             500, db))
            \/ (RecordModel.user_id record = user_id
                /\ str_in (RecordModel.status record) locked_statuses = false
                /\ db_error env = None
                /\ RecordResource.delete db env user_id record_id
                   = (RetBody (Message "Record deleted successfully"),
                      mkDb (users db) (base.delete record_id (records db))
                        (next_id db))))).
Proof.
  unfold RecordResource.delete.
  destruct (records db !! record_id) as [record|] eqn:Hget; [right|left; tauto].
  exists record. split; [reflexivity|].
  destruct (RecordModel.user_id record =? user_id) eqn:Hown; cbn [negb].
  2: { left. apply Z.eqb_neq in Hown. tauto. }
  apply Z.eqb_eq in Hown. right.
  destruct (str_in _ _) eqn:Hlock; [left; tauto|]. right.
  destruct (db_error env) as [e|] eqn:Hdb; [left|right]; eauto 6.
Qed.

Lemma not_locked (record : RecordModel.t) :
  ~ locked record ->
  str_in (RecordModel.status record) locked_statuses = false.
Proof.
  intros H. destruct (str_in _ _) eqn:E; [|reflexivity].
  apply str_in_locked in E. contradiction.
Qed.

(** *** Delete *)

(** X1.  A DELETE by the owner of a record that is not locked, when the
    session does not raise, is answered with 200 and removes that record
    and nothing else: every other record, the users table and the next key
    are as before. *)
Theorem delete_owner_deletes
    (db : Db) (env : Env) (user_id record_id : Z) (record : RecordModel.t) :
  records db !! record_id = Some record ->
  RecordModel.user_id record = user_id ->
  ~ locked record ->
  db_error env = None ->
  fst (RecordResource.delete db env user_id record_id)
    = RetBody (Message "Record deleted successfully")
  /\ records (snd (RecordResource.delete db env user_id record_id))
       !! record_id = None
  /\ (forall k, k <> record_id ->
        records (snd (RecordResource.delete db env user_id record_id)) !! k
        = records db !! k)
  /\ users (snd (RecordResource.delete db env user_id record_id)) = users db
  /\ next_id (snd (RecordResource.delete db env user_id record_id))
     = next_id db.
Proof.
  intros Hget Hown Hlock Hdb. apply not_locked in Hlock.
  unfold RecordResource.delete. apply Z.eqb_eq in Hown.
  rewrite Hget, Hown, Hlock, Hdb. cbn [negb fst snd records users next_id].
  repeat split.
  - apply lookup_delete_eq.
  - intros k Hk. apply lookup_delete_ne. congruence.
Qed.

(** Alice deletes her pending report; the report of Bob stays. *)
Lemma delete_owner_deletes_witness :
  fst (RecordResource.delete Fixture.db Fixture.env Fixture.alice 1)
    = RetBody (Message "Record deleted successfully")
  /\ records (snd (RecordResource.delete Fixture.db Fixture.env Fixture.alice 1))
       !! 1 = None
  /\ records (snd (RecordResource.delete Fixture.db Fixture.env Fixture.alice 1))
       !! 2 = Some Fixture.closed_report.
Proof.
  destruct (delete_owner_deletes Fixture.db Fixture.env Fixture.alice 1
              Fixture.report) as (Hret & Hgone & Hother & _).
  - reflexivity.
  - reflexivity.
  - intros [H | [H | H]]; discriminate H.
  - reflexivity.
  - split; [exact Hret|]. split; [exact Hgone|].
    rewrite (Hother 2); [reflexivity | discriminate].
Defined.

(** *** Not found *)

(** X2.  The 404 answers.  [put] and [delete] answer 404 exactly when the
    table has no record under the id.  [get] answers 404 exactly when it is
    given an id other than 0 under which the table has no record: the id 0
    is taken for no id, and the list request never answers 404. *)
Theorem not_found_iff
    (db : Db) (env : Env) (user_id record_id : Z) (req : Request) :
  (status_code (RecordResource.get db user_id (Some record_id) req) = 404
   <-> record_id <> 0 /\ records db !! record_id = None)
  /\ status_code (RecordResource.get db user_id None req) <> 404
  /\ (status_code (fst (RecordResource.put db env user_id record_id req)) = 404
      <-> records db !! record_id = None)
  /\ (status_code (fst (RecordResource.delete db env user_id record_id)) = 404
      <-> records db !! record_id = None).
Proof.
  assert (Hlist : status_code (RecordResource.get db user_id None req) <> 404).
  { unfold RecordResource.get. cbn [RecordResource.record_id_truthy].
    destruct (is_admin db user_id); discriminate. }
  split; [|split; [exact Hlist|split]].
  - destruct (decide (record_id = 0)) as [-> | Hne].
    + rewrite get_record_id_zero. split; [contradiction|]. intros [H _].
      contradiction.
    + unfold RecordResource.get, RecordResource.record_id_truthy.
      apply Z.eqb_neq in Hne. rewrite Hne. apply Z.eqb_neq in Hne.
      destruct (records db !! record_id) as [record|].
      * split; [|intros [_ H]; discriminate H].
        destruct (negb _ && negb _); discriminate.
      * split; [tauto | reflexivity].
  - destruct (put_cases db env user_id record_id req)
      as [(_ & message & code & Hret & Hcode) | (r & r' & Hget & _ & _ & _ & Hput)].
    + unfold RecordResource.put in *.
      destruct (records db !! record_id) as [record|]; [|tauto].
      split; [|discriminate].
      destruct (negb _); [discriminate|].
      destruct (str_in _ _); [discriminate|].
      destruct (RecordResource.put_try env req record) as [[resp|x]|e] eqn:Htry;
        try discriminate.
      destruct (put_try_inl _ _ _ _ Htry) as (m & ->). discriminate.
    + rewrite Hput, Hget. split; discriminate.
  - destruct (delete_cases db env user_id record_id)
      as [(Hget & ->) | (record & Hget & Hcase)].
    + tauto.
    + rewrite Hget.
      destruct Hcase as [(_ & ->) | [(_ & _ & ->) | [(_ & _ & e & _ & ->)
                        | (_ & _ & _ & ->)]]]; split; discriminate.
Qed.

(** X3.  Once a DELETE has succeeded, the id is gone for everybody: a
    second DELETE, a PUT and a GET of that id (an id other than 0) are
    answered with 404, whoever asks. *)
Theorem delete_then_not_found
    (db : Db) (env env' : Env) (user_id user_id' record_id : Z) (req : Request) :
  status_code (fst (RecordResource.delete db env user_id record_id)) = 200 ->
  RecordResource.delete (snd (RecordResource.delete db env user_id record_id))
      env' user_id' record_id
    = (RetCode (Message "Record not found") 404,
       snd (RecordResource.delete db env user_id record_id))
  /\ RecordResource.put (snd (RecordResource.delete db env user_id record_id))
       env' user_id' record_id req
     = (RetCode (Message "Record not found") 404,
        snd (RecordResource.delete db env user_id record_id))
  /\ (record_id <> 0 ->
        RecordResource.get (snd (RecordResource.delete db env user_id record_id))
          user_id' (Some record_id) req
        = RetCode (Message "Record not found") 404).
Proof.
  intros H200.
  destruct (delete_cases db env user_id record_id)
    as [(_ & Hd) | (record & _ & [(_ & Hd) | [(_ & _ & Hd)
                     | [(_ & _ & e & _ & Hd) | (_ & _ & _ & Hd)]]])];
    rewrite Hd in H200 |- *; try discriminate H200.
  cbn [snd].
  unfold RecordResource.delete, RecordResource.put, RecordResource.get,
    RecordResource.record_id_truthy.
  cbn [records]. rewrite lookup_delete_eq. repeat split.
  intros Hne. apply Z.eqb_neq in Hne. rewrite Hne.
  cbn [records]. rewrite lookup_delete_eq. reflexivity.
Qed.

(** Alice deletes her report; then the admin finds nothing under its id. *)
Lemma delete_then_not_found_witness :
  RecordResource.get
    (snd (RecordResource.delete Fixture.db Fixture.env Fixture.alice 1))
    Fixture.root (Some 1) (Fixture.form None None [])
  = RetCode (Message "Record not found") 404.
Proof.
  apply (delete_then_not_found Fixture.db Fixture.env Fixture.env Fixture.alice
           Fixture.root 1 (Fixture.form None None [])).
  - reflexivity.
  - discriminate.
Defined.

(** *** Create, then read *)

(** X4.  The record a successful create returns can be read back: a GET of
    its id by the creator returns exactly the record of the 201 answer,
    and the id is the key the table assigned (a key other than 0). *)
Theorem post_then_get
    (db : Db) (env : Env) (user_id : Z) (req req' : Request) :
  status_code (fst (RecordResource.post db env user_id req)) = 201 ->
  next_id db <> 0 ->
  exists f,
    fst (RecordResource.post db env user_id req)
      = RetCode (MessageRecord "Record created successfully" f) 201
    /\ Formatted.id f = next_id db
    /\ RecordResource.get (snd (RecordResource.post db env user_id req))
         user_id (Some (next_id db)) req'
       = RetBody (OneRecord f).
Proof.
  intros H201 Hne.
  destruct (post_cases db env user_id req)
    as [(_ & message & Hp) | [(_ & e & _ & Hp)
        | (_ & t & image_urls & _ & _ & _ & Hp)]];
    rewrite Hp in H201 |- *; try discriminate H201.
  cbn [fst snd]. eexists. split; [reflexivity|]. split; [reflexivity|].
  unfold RecordResource.get, RecordResource.record_id_truthy.
  apply Z.eqb_neq in Hne. rewrite Hne. cbn [records].
  rewrite lookup_insert_eq. cbn [RecordModel.user_id].
  rewrite Z.eqb_refl. reflexivity.
Qed.

(** Alice reads back the report she has just filed. *)
Lemma post_then_get_witness :
  exists f,
    fst (RecordResource.post Fixture.db Fixture.env Fixture.alice
           (Fixture.form (Some (float_of_Z 2)) None [Fixture.photo]))
      = RetCode (MessageRecord "Record created successfully" f) 201
    /\ Formatted.id f = 3
    /\ RecordResource.get
         (snd (RecordResource.post Fixture.db Fixture.env Fixture.alice
                 (Fixture.form (Some (float_of_Z 2)) None [Fixture.photo])))
         Fixture.alice (Some 3) (Fixture.form None None [])
       = RetBody (OneRecord f).
Proof.
  apply (post_then_get Fixture.db Fixture.env Fixture.alice
           (Fixture.form (Some (float_of_Z 2)) None [Fixture.photo])
           (Fixture.form None None [])).
  - reflexivity.
  - discriminate.
Defined.

Lemma fixture_keys_ok : keys_ok Fixture.db.
Proof.
  split; [unfold Fixture.db; cbn [next_id]; lia|].
  intros k r. unfold Fixture.db. cbn [records next_id].
  rewrite lookup_insert_Some, lookup_insert_Some, lookup_empty.
  intros [[<- _] | [_ [[<- _] | [_ H]]]]; [lia | lia | discriminate H].
Qed.

(** X5.  In a database whose keys lie below the next key, a create never
    touches a stored record: every record is found unchanged afterwards,
    and a 201 adds exactly one record, under a key that was free. *)
Theorem post_preserves_records
    (db : Db) (env : Env) (user_id : Z) (req : Request) :
  keys_ok db ->
  (forall k r, records db !! k = Some r ->
     records (snd (RecordResource.post db env user_id req)) !! k = Some r)
  /\ (status_code (fst (RecordResource.post db env user_id req)) = 201 ->
        records db !! next_id db = None
        /\ is_Some (records (snd (RecordResource.post db env user_id req))
                      !! next_id db)
        /\ size (records (snd (RecordResource.post db env user_id req)))
           = S (size (records db))).
Proof.
  intros [_ Hkeys].
  assert (Hfree : records db !! next_id db = None).
  { destruct (records db !! next_id db) as [r|] eqn:E; [|reflexivity].
    specialize (Hkeys _ _ E). lia. }
  destruct (post_cases db env user_id req)
    as [(_ & message & Hp) | [(_ & e & _ & Hp)
        | (_ & t & image_urls & _ & _ & _ & Hp)]];
    rewrite Hp; cbn [fst snd status_code records].
  - split; [tauto | discriminate].
  - split; [tauto | discriminate].
  - split.
    + intros k r Hk. rewrite lookup_insert_ne; [exact Hk|]. congruence.
    + intros _. split; [exact Hfree|]. split.
      * rewrite lookup_insert_eq. eauto.
      * apply map_size_insert_None. exact Hfree.
Qed.

(** After the create of Alice the table holds three records, the two old
    ones unchanged. *)
Lemma post_preserves_records_witness :
  records (snd (RecordResource.post Fixture.db Fixture.env Fixture.alice
                  (Fixture.form (Some (float_of_Z 2)) None [Fixture.photo])))
    !! 2 = Some Fixture.closed_report
  /\ size (records (snd (RecordResource.post Fixture.db Fixture.env
                           Fixture.alice
                           (Fixture.form (Some (float_of_Z 2)) None
                              [Fixture.photo]))))
     = S (size (records Fixture.db)).
Proof.
  destruct (post_preserves_records Fixture.db Fixture.env Fixture.alice
              (Fixture.form (Some (float_of_Z 2)) None [Fixture.photo])
              fixture_keys_ok) as [Hold Hnew].
  split.
  - apply Hold. reflexivity.
  - apply Hnew. reflexivity.
Defined.

(** *** Failures change nothing *)

(** X6.  The status codes of the four handlers, and atomicity: [post]
    answers 201, 400 or 500, [put] and [delete] 200, 400, 403, 404 or 500,
    [get] 200, 403 or 404; whenever [post] does not answer 201, and
    whenever [put] or [delete] does not answer 200, the database is exactly
    as it was. *)
Theorem failure_leaves_database
    (db : Db) (env : Env) (user_id record_id : Z) (record_id' : option Z)
    (req : Request) :
  (In (status_code (fst (RecordResource.post db env user_id req)))
      [201; 400; 500]
   /\ (status_code (fst (RecordResource.post db env user_id req)) <> 201 ->
       snd (RecordResource.post db env user_id req) = db))
  /\ (In (status_code (fst (RecordResource.put db env user_id record_id req)))
        [200; 400; 403; 404; 500]
      /\ (status_code (fst (RecordResource.put db env user_id record_id req))
            <> 200 ->
          snd (RecordResource.put db env user_id record_id req) = db))
  /\ (In (status_code (fst (RecordResource.delete db env user_id record_id)))
        [200; 400; 403; 404; 500]
      /\ (status_code (fst (RecordResource.delete db env user_id record_id))
            <> 200 ->
          snd (RecordResource.delete db env user_id record_id) = db))
  /\ In (status_code (RecordResource.get db user_id record_id' req))
       [200; 403; 404].
Proof.
  split; [|split; [|split]].
  - destruct (post_cases db env user_id req)
      as [(_ & message & ->) | [(_ & e & _ & ->)
          | (_ & t & image_urls & _ & _ & _ & ->)]];
      cbn [fst snd status_code]; (split; [simpl; tauto|]);
      solve [reflexivity | intros H; contradiction].
  - destruct (put_cases db env user_id record_id req)
      as [(Hdb & message & code & Hret & Hcode) | (r & r' & _ & _ & _ & _ & ->)].
    + rewrite Hdb, Hret. cbn [status_code]. split; [|reflexivity].
      simpl in Hcode |- *. tauto.
    + cbn [fst snd status_code]. split; [simpl; tauto|].
      intros H; contradiction.
  - destruct (delete_cases db env user_id record_id)
      as [(_ & ->) | (record & _ & [(_ & ->) | [(_ & _ & ->)
                       | [(_ & _ & e & _ & ->) | (_ & _ & _ & ->)]]])];
      cbn [fst snd status_code]; (split; [simpl; tauto|]);
      solve [reflexivity | intros H; contradiction].
  - unfold RecordResource.get.
    destruct (RecordResource.record_id_truthy record_id') as [rid|].
    + destruct (records db !! rid) as [record|]; [|simpl; tauto].
      destruct (negb _ && negb _); simpl; tauto.
    + cbn zeta. destruct (is_admin db user_id); simpl; tauto.
Qed.

(** The refused update of the admin leaves the fixture as it is. *)
Lemma failure_leaves_database_witness :
  snd (RecordResource.put Fixture.db Fixture.env Fixture.root 1
         (Fixture.form (Some (float_of_Z 2)) (Some (float_of_Z 3)) []))
  = Fixture.db
  /\ snd (RecordResource.post Fixture.db Fixture.env_upload_raises Fixture.alice
            (Fixture.form (Some (float_of_Z 2)) None [Fixture.photo]))
     = Fixture.db.
Proof.
  split.
  - apply (failure_leaves_database Fixture.db Fixture.env Fixture.root 1 None
             (Fixture.form (Some (float_of_Z 2)) (Some (float_of_Z 3)) [])).
    discriminate.
  - apply (failure_leaves_database Fixture.db Fixture.env_upload_raises
             Fixture.alice 1 None
             (Fixture.form (Some (float_of_Z 2)) None [Fixture.photo])).
    discriminate.
Defined.

(** *** The upload loop, when an upload raises *)

(** X7.  The upload loop raises exactly when some truthy file makes the
    uploader raise while every truthy file before it was uploaded; the
    exception is the one of that first failing file.  Files with an empty
    file name are never handed to the uploader. *)
Theorem upload_files_raises_iff
    (env : Env) (uploaded_files : list FileStorage) (e : string) :
  upload_files env uploaded_files = Raises e
  <-> exists (before : list FileStorage) file after,
        uploaded_files = (before ++ file :: after)%list
        /\ file_truthy file = true
        /\ upload env file = Raises e
        /\ Forall (fun f => file_truthy f = true ->
                            exists url, upload env f = Returns url) before.
Proof.
  induction uploaded_files as [|file rest IH]; simpl.
  - split; [discriminate|].
    intros (before & f & after & Heq & _). destruct before; discriminate Heq.
  - destruct (file_truthy file) eqn:Htruthy.
    + destruct (upload env file) as [url|e'] eqn:Hup.
      * destruct (upload_files env rest) as [urls|e''] eqn:Hrest.
        -- split; [discriminate|].
           intros (before & f & after & Heq & Hf & He & Hall).
           destruct before as [|b before]; simpl in Heq;
             injection Heq as -> ->; [congruence|].
           inversion Hall as [|x l Hb Hall']; subst.
           assert (Hc : Returns urls = Raises e); [|discriminate Hc].
           apply IH. eauto 8.
        -- split.
           ++ intros H. injection H as ->.
              destruct (proj1 IH eq_refl)
                as (before & f & after & -> & Hf & He & Hall).
              exists (file :: before), f, after. repeat split; try assumption.
              constructor; [eauto | assumption].
           ++ intros (before & f & after & Heq & Hf & He & Hall).
              destruct before as [|b before]; simpl in Heq;
                injection Heq as -> ->; [congruence|].
              inversion Hall as [|x l Hb Hall']; subst.
              apply IH. eauto 8.
      * split.
        -- intros H. injection H as ->.
           exists [], file, rest. repeat split; try assumption. constructor.
        -- intros (before & f & after & Heq & Hf & He & Hall).
           destruct before as [|b before]; simpl in Heq;
             injection Heq as -> ->; [congruence|].
           inversion Hall as [|x l Hb Hall']; subst.
           destruct (Hb Htruthy) as (url & Hurl). congruence.
    + rewrite IH. split.
      * intros (before & f & after & -> & Hf & He & Hall).
        exists (file :: before), f, after. repeat split; try assumption.
        constructor; [|assumption]. intros H. congruence.
      * intros (before & f & after & Heq & Hf & He & Hall).
        destruct before as [|b before]; simpl in Heq;
          injection Heq as -> ->; [congruence|].
        inversion Hall; subst. eauto 8.
Qed.

(** *** The status of a create *)

(** X8.  The answer of [post] is decided by the request and the
    environment alone: 400 exactly when the request fails validation (type
    not one of the two spellings, or a coordinate present and out of
    range), 500 exactly when it passes and an upload or the session raises,
    201 exactly when it passes and nothing raises.  Title, description and
    the coordinates may be absent. *)
Theorem post_status_iff (db : Db) (env : Env) (user_id : Z) (req : Request) :
  (status_code (fst (RecordResource.post db env user_id req)) = 400
   <-> ~ passes_validation req)
  /\ (status_code (fst (RecordResource.post db env user_id req)) = 500
      <-> passes_validation req
          /\ ((exists e, upload_files env (files_images req) = Raises e)
              \/ exists e, db_error env = Some e))
  /\ (status_code (fst (RecordResource.post db env user_id req)) = 201
      <-> passes_validation req
          /\ (exists image_urls, uploaded env (files_images req) image_urls)
          /\ db_error env = None).
Proof.
  destruct (post_cases db env user_id req)
    as [(Hval & message & ->) | [(Hval & e & Hwhy & ->)
        | (Hval & t & image_urls & _ & Hup & Hdb & ->)]];
    cbn [fst status_code].
  - repeat split; try tauto; try discriminate; intros [H _]; contradiction.
  - split; [split; [discriminate | contradiction]|]. split.
    + split; [|reflexivity]. intros _. split; [exact Hval|].
      destruct Hwhy as [H | [_ H]]; eauto.
    + split; [discriminate|]. intros (_ & (urls & Hu) & Hdb).
      apply upload_files_returns in Hu.
      destruct Hwhy as [H | [_ H]]; congruence.
  - split; [split; [discriminate | contradiction]|]. split.
    + split; [discriminate|]. intros (_ & [(e & H) | (e & H)]); congruence.
    + split; [|reflexivity]. intros _. split; [exact Hval|].
      split; [|exact Hdb]. exists image_urls. now apply upload_files_returns.
Qed.

(** *** Reading one record *)

(** X9.  A GET of an existing record (an id other than 0) returns the
    record, with status 200, exactly when the caller is its owner or an
    admin; otherwise the answer is 403.  The answer never depends on the
    form or the query string. *)
Theorem get_one_allowed_iff
    (db : Db) (user_id record_id : Z) (req : Request) (record : RecordModel.t) :
  record_id <> 0 ->
  records db !! record_id = Some record ->
  (RecordModel.user_id record = user_id \/ is_admin db user_id = true ->
     RecordResource.get db user_id (Some record_id) req
       = RetBody (OneRecord (RecordResource.format_record record)))
  /\ (status_code (RecordResource.get db user_id (Some record_id) req) = 200
      <-> RecordModel.user_id record = user_id \/ is_admin db user_id = true)
  /\ (status_code (RecordResource.get db user_id (Some record_id) req) = 403
      <-> RecordModel.user_id record <> user_id /\ is_admin db user_id = false).
Proof.
  intros Hne Hget. unfold RecordResource.get, RecordResource.record_id_truthy.
  apply Z.eqb_neq in Hne. rewrite Hne, Hget.
  destruct (RecordModel.user_id record =? user_id) eqn:Hown;
    [apply Z.eqb_eq in Hown | apply Z.eqb_neq in Hown];
    destruct (is_admin db user_id); cbn [negb andb status_code];
    repeat split; try tauto; try discriminate;
    try (intros [H | H]; solve [contradiction | discriminate H]);
    try (intros [H1 H2]; solve [contradiction | discriminate H2]).
Qed.

(** Alice reads her own report though she is no admin. *)
Lemma get_one_allowed_iff_witness :
  is_admin Fixture.db Fixture.alice = false
  /\ RecordResource.get Fixture.db Fixture.alice (Some 1)
       (Fixture.form None None [])
     = RetBody (OneRecord (RecordResource.format_record Fixture.report)).
Proof.
  split; [reflexivity|].
  apply (get_one_allowed_iff Fixture.db Fixture.alice 1
           (Fixture.form None None []) Fixture.report).
  - discriminate.
  - reflexivity.
  - left. reflexivity.
Defined.

(** *** The list of a caller who is no admin *)

Lemma query_filter_by_user_id_keys (db : Db) (user_id : Z) :
  query_filter_by_user_id db user_id
  = snd <$> filter (fun kr : Z * RecordModel.t =>
                      RecordModel.user_id (snd kr) = user_id)
              (map_to_list (records db)).
Proof.
  unfold query_filter_by_user_id, query_all.
  generalize (map_to_list (records db)). intros l.
  induction l as [|[k r] l IH]; [reflexivity|].
  rewrite fmap_cons, filter_cons. cbn [List.filter snd].
  destruct (decide (RecordModel.user_id r = user_id)) as [Heq | Hneq].
  - apply Z.eqb_eq in Heq. rewrite Heq, fmap_cons, IH. reflexivity.
  - apply Z.eqb_neq in Hneq. rewrite Hneq. exact IH.
Qed.

(** X10.  For a caller who is not an admin the list request returns the
    formatted records of exactly the stored records the caller owns: a
    record of another user is never in the list, every record of the caller
    is, once per key, and the [page] and [per_page] arguments make no
    difference. *)
Theorem get_list_own_records
    (db : Db) (user_id : Z) (req : Request) :
  is_admin db user_id = false ->
  exists krs : list (Z * RecordModel.t),
    RecordResource.get db user_id None req
      = RetBody (RecordList (map RecordResource.format_record (snd <$> krs)))
    /\ NoDup (fst <$> krs)
    /\ (forall k r, (k, r) ∈ krs <-> records db !! k = Some r
                                    /\ RecordModel.user_id r = user_id)
    /\ forall page per_page,
         RecordResource.get db user_id None
           (mkRequest (form_type req) (form_title req) (form_description req)
              (form_latitude req) (form_longitude req) (files_images req)
              page per_page)
         = RecordResource.get db user_id None req.
Proof.
  intros Hadm.
  exists (filter (fun kr : Z * RecordModel.t =>
                    RecordModel.user_id (snd kr) = user_id)
            (map_to_list (records db))).
  split; [|split; [|split]].
  - rewrite get_list_non_admin by assumption.
    rewrite query_filter_by_user_id_keys. reflexivity.
  - apply (sublist_NoDup _ (fst <$> map_to_list (records db))).
    + apply NoDup_fst_map_to_list.
    + apply fmap_sublist, sublist_filter.
  - intros k r. rewrite list_elem_of_filter, elem_of_map_to_list.
    cbn [snd]. tauto.
  - intros page per_page. rewrite !get_list_non_admin by assumption.
    reflexivity.
Qed.

(** Bob lists his reports: one record, his. *)
Lemma get_list_own_records_witness :
  exists krs : list (Z * RecordModel.t),
    RecordResource.get Fixture.db Fixture.bob None (Fixture.form None None [])
      = RetBody (RecordList (map RecordResource.format_record (snd <$> krs)))
    /\ (forall k r, (k, r) ∈ krs <-> records Fixture.db !! k = Some r
                                    /\ RecordModel.user_id r = Fixture.bob).
Proof.
  destruct (get_list_own_records Fixture.db Fixture.bob
              (Fixture.form None None []) eq_refl) as (krs & H1 & _ & H2 & _).
  exists krs. split; assumption.
Defined.

(** *** The public form of a record *)



(** *** Update: the images when nothing is uploaded *)

(** X12.  A successful update keeps the images of the record when the
    request has no file part, and empties them when the request has file
    parts that are all empty (no file name): the answer then shows the
    empty string for the images. *)
Theorem put_images_without_upload
    (db : Db) (env : Env) (user_id record_id : Z) (req : Request)
    (record : RecordModel.t) :
  records db !! record_id = Some record ->
  status_code (fst (RecordResource.put db env user_id record_id req)) = 200 ->
  exists record',
    records (snd (RecordResource.put db env user_id record_id req))
      !! record_id = Some record'
    /\ returned_record (fst (RecordResource.put db env user_id record_id req))
       = Some (RecordResource.format_record record')
    /\ (files_images req = [] ->
        RecordModel.images record' = RecordModel.images record)
    /\ (files_images req <> [] ->
        Forall (fun file => filename file = EmptyString) (files_images req) ->
        RecordModel.images record' = []
        /\ Formatted.images (RecordResource.format_record record')
           = ImagesStr EmptyString).
Proof.
  intros Hrec H200.
  destruct (put_200 _ _ _ _ _ H200)
    as (r & record' & Hget & _ & _ & Htry & Hput).
  rewrite Hrec in Hget. injection Hget as <-.
  rewrite Hput. cbn [fst snd records returned_record].
  exists record'. split; [apply lookup_insert_eq|]. split; [reflexivity|].
  apply put_try_inr in Htry.
  destruct Htry as (t & title & description & latitude & longitude & urls
                    & _ & _ & _ & _ & _ & _ & _ & _ & Himg & _ & Hr').
  split.
  - intros Hnil. rewrite Hnil in Himg. rewrite Hr'. exact Himg.
  - intros Hne Hall.
    destruct (files_images req) as [|file rest] eqn:Hfiles; [contradiction|].
    assert (Hurls : urls = []).
    { apply upload_files_returns in Himg. unfold uploaded in Himg.
      assert (Hnone : List.filter file_truthy (file :: rest) = []).
      { clear -Hall. induction Hall as [|f l Hf _ IH]; [reflexivity|].
        cbn [List.filter]. unfold file_truthy at 1. rewrite Hf. exact IH. }
      rewrite Hnone in Himg. inversion Himg. reflexivity. }
    rewrite Hr', Hurls. split; reflexivity.
Qed.

(** Alice updates her report without a file, then with an empty file
    part. *)
Lemma put_images_without_upload_witness :
  (exists record',
     records (snd (RecordResource.put Fixture.db Fixture.env Fixture.alice 1
                     (Fixture.form (Some (float_of_Z 2)) (Some (float_of_Z 3))
                        []))) !! 1 = Some record'
     /\ RecordModel.images record' = ["a.jpg"; "b.jpg"])
  /\ (exists record',
        records (snd (RecordResource.put Fixture.db Fixture.env Fixture.alice 1
                        (Fixture.form (Some (float_of_Z 2))
                           (Some (float_of_Z 3))
                           [mkFile EmptyString EmptyString]))) !! 1
          = Some record'
        /\ RecordModel.images record' = []).
Proof.
  split.
  - destruct (put_images_without_upload Fixture.db Fixture.env Fixture.alice 1
                (Fixture.form (Some (float_of_Z 2)) (Some (float_of_Z 3)) [])
                Fixture.report eq_refl eq_refl)
      as (record' & Hget & _ & Hkeep & _).
    exists record'. split; [exact Hget|]. apply Hkeep. reflexivity.
  - destruct (put_images_without_upload Fixture.db Fixture.env Fixture.alice 1
                (Fixture.form (Some (float_of_Z 2)) (Some (float_of_Z 3))
                   [mkFile EmptyString EmptyString])
                Fixture.report eq_refl eq_refl)
      as (record' & Hget & _ & _ & Hclear).
    exists record'. split; [exact Hget|]. apply Hclear.
    + discriminate.
    + repeat constructor.
Defined.

(** *** Update: the committed record *)




(** *** Update: a missing field *)

(** X14.  An update has no partial form: when the type, the title, the
    description, the latitude or the longitude is missing (or, for the
    three texts, empty), the owner of an unlocked record is answered with
    400 and nothing changes; when the field missing is not the type and the
    type is valid, or when the type itself is missing, the answer is the
    one of the all-fields check. *)
Theorem put_missing_field_rejected
    (db : Db) (env : Env) (user_id record_id : Z) (req : Request)
    (record : RecordModel.t) :
  records db !! record_id = Some record ->
  RecordModel.user_id record = user_id ->
  ~ locked record ->
  absent (form_type req) \/ absent (form_title req)
    \/ absent (form_description req)
    \/ form_latitude req = None \/ form_longitude req = None ->
  status_code (fst (RecordResource.put db env user_id record_id req)) = 400
  /\ snd (RecordResource.put db env user_id record_id req) = db
  /\ (absent (form_type req)
      \/ (exists t, form_type req = Some t
                    /\ (lower t = "red-flag" \/ lower t = "intervention")) ->
      fst (RecordResource.put db env user_id record_id req)
      = RetCode (Message
          "All fields (type, title, description, latitude, longitude) are required")
          400).
Proof.
  intros Hget Hown Hlock Hmiss.
  apply not_locked in Hlock. apply Z.eqb_eq in Hown.
  assert (Hall : RecordResource.all_fields (form_type req) (form_title req)
                   (form_description req) (form_latitude req)
                   (form_longitude req) = false).
  { unfold RecordResource.all_fields.
    destruct Hmiss as [[-> | ->] | [[-> | ->] | [[-> | ->] | [-> | ->]]]];
      cbn [str_truthy opt_float_truthy andb];
      rewrite ?andb_false_r; reflexivity. }
  unfold RecordResource.put. rewrite Hget, Hown, Hlock. cbn [negb].
  unfold RecordResource.put_try. rewrite Hall. cbn [negb].
  destruct (RecordResource.put_type (form_type req) record) as [resp|r1] eqn:Hty.
  - pose proof (put_type_inl _ _ _ Hty) as Hresp. rewrite Hresp in *.
    cbn [fst snd status_code].
    repeat split. intros Hvalid. exfalso.
    unfold RecordResource.put_type in Hty.
    destruct Hvalid as [[Ha | Ha] | (t & Ht & Hcase)]; rewrite ?Ha, ?Ht
      in Hty; try discriminate Hty.
    assert (Htr : str_truthy (Some t) = true).
    { destruct t; [|reflexivity]. destruct Hcase; discriminate. }
    assert (Hin : str_in (lower t) ["red-flag"; "intervention"] = true).
    { apply str_in_In. simpl. destruct Hcase as [-> | ->]; tauto. }
    rewrite Htr in Hty. change (default EmptyString (Some t)) with t in Hty.
    rewrite Hin in Hty. discriminate Hty.
  - cbn [fst snd status_code]. repeat split.
Qed.

(** Alice sends only a new title. *)
Lemma put_missing_field_rejected_witness :
  RecordResource.put Fixture.db Fixture.env Fixture.alice 1
    (mkRequest None (Some "New title") None None None [] None None)
  = (RetCode (Message
       "All fields (type, title, description, latitude, longitude) are required")
       400, Fixture.db).
Proof.
  destruct (put_missing_field_rejected Fixture.db Fixture.env Fixture.alice 1
              (mkRequest None (Some "New title") None None None [] None None)
              Fixture.report) as (_ & Hdb & Hmsg).
  - reflexivity.
  - reflexivity.
  - intros [H | [H | H]]; discriminate H.
  - left. left. reflexivity.
  - rewrite <- Hdb at 2. rewrite <- Hmsg; [|left; left; reflexivity].
    apply surjective_pairing.
Defined.

(** *** Update: the same request again *)

Lemma upload_files_with_clock (env : Env) (clock : nat -> Z)
    (uploaded_files : list FileStorage) :
  upload_files (with_clock env clock) uploaded_files
  = upload_files env uploaded_files.
Proof.
  induction uploaded_files as [|file rest IH]; [reflexivity|].
  cbn [upload_files with_clock upload]. rewrite IH. reflexivity.
Qed.

(** Whether [put_try] commits does not depend on the stored record, and
    what it commits takes from it the id, the owner, the status, the
    creation time and, without file parts, the images. *)
Lemma put_try_again (env : Env) (clock : nat -> Z) (req : Request)
    (r1 r' r2 : RecordModel.t) :
  RecordResource.put_try env req r1 = Returns (inr r') ->
  RecordResource.put_try (with_clock env clock) req r2
  = Returns (inr (RecordModel.mk (RecordModel.id r2) (RecordModel.type r')
                    (RecordModel.title r') (RecordModel.description r')
                    (RecordModel.latitude r') (RecordModel.longitude r')
                    (match files_images req with
                     | [] => RecordModel.images r2
                     | _ :: _ => RecordModel.images r'
                     end)
                    (RecordModel.status r2) (RecordModel.user_id r2)
                    (RecordModel.created_at r2) (Some (clock 0%nat)))).
Proof.
  unfold RecordResource.put_try, RecordResource.put_type,
    RecordResource.all_fields, RecordResource.put_images.
  intros H. rewrite upload_files_with_clock.
  destruct (str_truthy (form_type req));
    [destruct (str_in (lower _) _); cbn [negb] in *; [|discriminate H]|];
    cbn [andb negb] in *; try discriminate H.
  destruct (str_truthy (form_title req) && str_truthy (form_description req)
            && opt_float_truthy (form_latitude req)
            && opt_float_truthy (form_longitude req));
    cbn [negb] in *; [|discriminate H].
  destruct (form_title req) as [title|]; [|discriminate H].
  destruct (form_description req) as [description|]; [|discriminate H].
  destruct (form_latitude req) as [latitude|]; [|discriminate H].
  destruct (form_longitude req) as [longitude|]; [|discriminate H].
  destruct (between (-90) latitude 90); cbn [negb] in *; [|discriminate H].
  destruct (between (-180) longitude 180); cbn [negb] in *; [|discriminate H].
  cbn [with_clock db_error now].
  destruct (files_images req) as [|file rest].
  - destruct (db_error env); [discriminate H|]. injection H as <-. reflexivity.
  - destruct (upload_files env (file :: rest)); [|discriminate H].
    destruct (db_error env); [discriminate H|]. injection H as <-. reflexivity.
Qed.

(** X15.  Sending a successful update a second time succeeds again and
    changes nothing but [updated_at]: the record stored after the second
    request is the one stored after the first, with the time of the second
    (the uploader answering as before). *)
Theorem put_twice
    (db : Db) (env : Env) (clock : nat -> Z) (user_id record_id : Z)
    (req : Request) :
  status_code (fst (RecordResource.put db env user_id record_id req)) = 200 ->
  exists record',
    records (snd (RecordResource.put db env user_id record_id req))
      !! record_id = Some record'
    /\ RecordResource.put
         (snd (RecordResource.put db env user_id record_id req))
         (with_clock env clock) user_id record_id req
       = (RetBody (MessageRecord "Record updated successfully"
                     (RecordResource.format_record
                        (RecordResource.set_updated_at (Some (clock 0%nat))
                           record'))),
          mkDb (users db)
            (<[record_id := RecordResource.set_updated_at (Some (clock 0%nat))
                              record']> (records db))
            (next_id db)).
Proof.
  intros H200.
  destruct (put_200 _ _ _ _ _ H200)
    as (record & record' & Hget & Hown & Hlock & Htry & Hput).
  rewrite Hput. cbn [snd records]. exists record'.
  split; [apply lookup_insert_eq|].
  pose proof (put_try_again env clock req record record' record' Htry) as Hagain.
  apply put_try_inr in Htry.
  destruct Htry as (t & title & description & latitude & longitude & urls
                    & _ & _ & _ & _ & _ & _ & _ & _ & _ & _ & Hrec).
  assert (Hown' : RecordModel.user_id record' = user_id)
    by (rewrite Hrec; exact Hown).
  assert (Hlock' : str_in (RecordModel.status record') locked_statuses = false)
    by (rewrite Hrec; exact Hlock).
  unfold RecordResource.put at 1. cbn [records users next_id].
  rewrite lookup_insert_eq. apply Z.eqb_eq in Hown'. rewrite Hown', Hlock'.
  cbn [negb]. rewrite Hagain, insert_insert_eq.
  replace (match files_images req with
           | [] => RecordModel.images record'
           | _ :: _ => RecordModel.images record'
           end) with (RecordModel.images record')
    by (destruct (files_images req); reflexivity).
  reflexivity.
Qed.

(** Alice sends her update twice, the second time one tick later. *)
Lemma put_twice_witness :
  exists record',
    records (snd (RecordResource.put Fixture.db Fixture.env Fixture.alice 1
                    (Fixture.form (Some (float_of_Z 2)) (Some (float_of_Z 3))
                       [Fixture.photo]))) !! 1 = Some record'
    /\ RecordResource.put
         (snd (RecordResource.put Fixture.db Fixture.env Fixture.alice 1
                 (Fixture.form (Some (float_of_Z 2)) (Some (float_of_Z 3))
                    [Fixture.photo])))
         (with_clock Fixture.env (fun _ => 2000)) Fixture.alice 1
         (Fixture.form (Some (float_of_Z 2)) (Some (float_of_Z 3))
            [Fixture.photo])
       = (RetBody (MessageRecord "Record updated successfully"
                     (RecordResource.format_record
                        (RecordResource.set_updated_at (Some 2000) record'))),
          mkDb (users Fixture.db)
            (<[1 := RecordResource.set_updated_at (Some 2000) record']>
               (records Fixture.db))
            (next_id Fixture.db)).
Proof.
  apply (put_twice Fixture.db Fixture.env (fun _ => 2000) Fixture.alice 1
           (Fixture.form (Some (float_of_Z 2)) (Some (float_of_Z 3))
              [Fixture.photo])).
  reflexivity.
Defined.

(** *** What the handlers keep *)

Lemma step_records_ok (db db' : Db) :
  1 <= next_id db ->
  (forall k r, records db !! k = Some r -> record_ok db k r) ->
  step db db' ->
  1 <= next_id db'
  /\ forall k r, records db' !! k = Some r -> record_ok db' k r.
Proof.
  intros Hn Hok Hstep.
  destruct Hstep as [env user_id req | env user_id record_id req
                    | env user_id record_id].
  - destruct (post_cases db env user_id req)
      as [(_ & message & ->) | [(_ & e & _ & ->)
          | (_ & t & image_urls & _ & _ & _ & ->)]];
      cbn [snd]; try (split; assumption).
    cbn [next_id records]. split; [lia|].
    intros k r. rewrite lookup_insert.
    destruct (decide (next_id db = k)) as [<-|_].
    + intros Hr. injection Hr as <-. unfold record_ok.
      cbn [RecordModel.id RecordModel.status RecordModel.created_at
             RecordModel.updated_at next_id].
      repeat split; eauto; lia.
    + intros Hr. destruct (Hok k r Hr) as (H1 & H2 & H3 & H4 & H5).
      unfold record_ok. cbn [next_id]. repeat split; try assumption; lia.
  - destruct (put_cases db env user_id record_id req)
      as [(-> & _) | (r & r' & Hget & _ & _ & Htry & ->)]; [split; assumption|].
    cbn [snd next_id records]. split; [assumption|].
    intros k x. rewrite lookup_insert.
    destruct (decide (record_id = k)) as [<-|_]; [|apply Hok].
    intros Hx. injection Hx as <-.
    destruct (Hok record_id r Hget) as (H1 & H2 & H3 & H4 & H5).
    apply put_try_inr in Htry.
    destruct Htry as (t & title & description & latitude & longitude & urls
                      & _ & _ & _ & _ & _ & _ & _ & _ & _ & _ & Hrec).
    rewrite Hrec. unfold record_ok.
    cbn [RecordModel.id RecordModel.status RecordModel.created_at
           RecordModel.updated_at next_id].
    repeat split; eauto; lia.
  - destruct (delete_cases db env user_id record_id)
      as [(_ & ->) | (record & _ & [(_ & ->) | [(_ & _ & ->)
                       | [(_ & _ & e & _ & ->) | (_ & _ & _ & ->)]]])];
      cbn [snd]; try (split; assumption).
    cbn [next_id records]. split; [assumption|].
    intros k x Hx. apply lookup_delete_Some in Hx. destruct Hx as [_ Hx].
    exact (Hok k x Hx).
Qed.

(** X16.  In every database the handlers build from an empty records
    table, each record carries its own key as id, a key between 1 and the
    next key, both timestamps, and the status "pending": no handler ever
    writes another status, so no record is locked. *)
Theorem reachable_records_ok (db : Db) :
  reachable db ->
  forall k r, records db !! k = Some r -> record_ok db k r /\ ~ locked r.
Proof.
  intros Hreach.
  assert (Hinv : 1 <= next_id db
                 /\ forall k r, records db !! k = Some r -> record_ok db k r).
  { induction Hreach as [us n Hn | db db' _ IH Hstep].
    - split; [exact Hn|]. intros k r Hr. cbn [records] in Hr.
      rewrite lookup_empty in Hr. discriminate Hr.
    - destruct IH as [Hn Hok]. exact (step_records_ok db db' Hn Hok Hstep). }
  intros k r Hr. split; [exact (proj2 Hinv k r Hr)|].
  destruct (proj2 Hinv k r Hr) as (_ & _ & Hst & _).
  unfold locked. rewrite Hst. intros [H | [H | H]]; discriminate H.
Qed.

(** A create, then an update of the record created. *)
Lemma reachable_records_ok_witness :
  exists r,
    records
      (snd (RecordResource.put
              (snd (RecordResource.post (mkDb ∅ ∅ 1) Fixture.env Fixture.alice
                      (Fixture.form (Some (float_of_Z 2)) None [])))
              Fixture.env Fixture.alice 1
              (Fixture.form (Some (float_of_Z 2)) (Some (float_of_Z 3)) [])))
      !! 1 = Some r
    /\ RecordModel.id r = 1
    /\ RecordModel.status r = "pending".
Proof.
  assert (Hreach :
    reachable
      (snd (RecordResource.put
              (snd (RecordResource.post (mkDb ∅ ∅ 1) Fixture.env Fixture.alice
                      (Fixture.form (Some (float_of_Z 2)) None [])))
              Fixture.env Fixture.alice 1
              (Fixture.form (Some (float_of_Z 2)) (Some (float_of_Z 3)) [])))).
  { apply (reachable_step
             (snd (RecordResource.post (mkDb ∅ ∅ 1) Fixture.env Fixture.alice
                     (Fixture.form (Some (float_of_Z 2)) None []))));
      [|apply step_put].
    apply (reachable_step (mkDb ∅ ∅ 1)); [apply reachable_init; lia|].
    apply step_post. }
  eexists. split; [vm_compute; reflexivity|].
  match goal with
  | |- RecordModel.id ?r = _ /\ _ =>
      destruct (reachable_records_ok _ Hreach 1 r) as [(Hid & _ & Hst & _) _];
        [vm_compute; reflexivity | split; [exact Hid | exact Hst]]
  end.
Defined.

(** X17.  No request changes the users table or the role of anybody, and
    in a database whose keys lie below the next key no request changes the
    id, the owner, the status or the creation time of a record that is
    still stored afterwards. *)
Theorem step_preserves_owner (db db' : Db) :
  keys_ok db ->
  step db db' ->
  users db' = users db
  /\ (forall user_id, is_admin db' user_id = is_admin db user_id)
  /\ forall k r r',
       records db !! k = Some r -> records db' !! k = Some r' ->
       RecordModel.id r' = RecordModel.id r
       /\ RecordModel.user_id r' = RecordModel.user_id r
       /\ RecordModel.status r' = RecordModel.status r
       /\ RecordModel.created_at r' = RecordModel.created_at r.
Proof.
  intros [_ Hkeys] Hstep.
  assert (Husers : users db' = users db).
  { destruct Hstep as [env user_id req | env user_id record_id req
                      | env user_id record_id].
    - destruct (post_cases db env user_id req)
        as [(_ & message & ->) | [(_ & e & _ & ->)
            | (_ & t & image_urls & _ & _ & _ & ->)]]; reflexivity.
    - destruct (put_cases db env user_id record_id req)
        as [(-> & _) | (r & r' & _ & _ & _ & _ & ->)]; reflexivity.
    - destruct (delete_cases db env user_id record_id)
        as [(_ & ->) | (record & _ & [(_ & ->) | [(_ & _ & ->)
                         | [(_ & _ & e & _ & ->) | (_ & _ & _ & ->)]]])];
        reflexivity. }
  split; [exact Husers|]. split.
  { intros user_id. unfold is_admin. rewrite Husers. reflexivity. }
  intros k r r' Hr Hr'.
  assert (Hsame : r' = r -> RecordModel.id r' = RecordModel.id r
                   /\ RecordModel.user_id r' = RecordModel.user_id r
                   /\ RecordModel.status r' = RecordModel.status r
                   /\ RecordModel.created_at r' = RecordModel.created_at r).
  { intros ->. repeat split. }
  destruct Hstep as [env user_id req | env user_id record_id req
                    | env user_id record_id].
  - destruct (post_cases db env user_id req)
      as [(_ & message & Hp) | [(_ & e & _ & Hp)
          | (_ & t & image_urls & _ & _ & _ & Hp)]];
      rewrite Hp in Hr'; cbn [snd records] in Hr'; apply Hsame;
      try congruence.
    rewrite lookup_insert_ne in Hr'; [congruence|].
    intros <-. specialize (Hkeys _ _ Hr). lia.
  - destruct (put_cases db env user_id record_id req)
      as [(Hdb & _) | (x & x' & Hget & _ & _ & Htry & Hp)].
    + rewrite Hdb in Hr'. apply Hsame. congruence.
    + rewrite Hp in Hr'. cbn [snd records] in Hr'.
      rewrite lookup_insert in Hr'.
      destruct (decide (record_id = k)) as [<-|_];
        [|apply Hsame; congruence].
      injection Hr' as <-. rewrite Hget in Hr. injection Hr as <-.
      apply put_try_inr in Htry.
      destruct Htry as (t & title & description & latitude & longitude & urls
                        & _ & _ & _ & _ & _ & _ & _ & _ & _ & _ & Hrec).
      rewrite Hrec. repeat split.
  - destruct (delete_cases db env user_id record_id)
      as [(_ & Hd) | (record & _ & [(_ & Hd) | [(_ & _ & Hd)
                       | [(_ & _ & e & _ & Hd) | (_ & _ & _ & Hd)]]])];
      rewrite Hd in Hr'; cbn [snd records] in Hr'; apply Hsame;
      try congruence.
    apply lookup_delete_Some in Hr'. destruct Hr' as [_ Hr']. congruence.
Qed.

(** The update of Alice leaves the report hers, and the admin an admin. *)
Lemma step_preserves_owner_witness :
  is_admin
    (snd (RecordResource.put Fixture.db Fixture.env Fixture.alice 1
            (Fixture.form (Some (float_of_Z 2)) (Some (float_of_Z 3)) [])))
    Fixture.root
  = is_admin Fixture.db Fixture.root.
Proof.
  apply (step_preserves_owner Fixture.db _ fixture_keys_ok
           (step_put Fixture.db Fixture.env Fixture.alice 1
              (Fixture.form (Some (float_of_Z 2)) (Some (float_of_Z 3)) []))).
Defined.
